(** * LiteICLink: the 7-series SerWB SerDes front end (serwb/s7serdes.py)

    A shallow embedding of [_S7SerdesClocking], [_S7SerdesTX],
    [_S7SerdesRX] and of the reset-inserted assembly [S7Serdes].

    The Python source is a Migen hardware description: running a
    constructor elaborates a netlist (and may raise), and the netlist is a
    set of combinational assignments ([self.comb]) and of registers updated
    on the rising edge of the [sys] clock ([self.sync]).  Construction is
    embedded as functions into an error type, the netlist as a synchronous
    machine: a record of registers, a combinational output function and a
    next-register function, both taking the values that the environment
    drives during the cycle.  Vendor primitives ([OSERDESE2], [IDELAYE2],
    [ISERDESE2]) and the line-coding datapaths are the environment: the
    machine outputs the values on their input pins and takes their outputs
    as inputs. *)

From Stdlib Require Import String ZArith List Bool Lia.
Import ListNotations.
Local Open Scope Z_scope.

(** ** Migen values *)

Module Migen.

(** Assignment to a [Signal(w)]: the value is truncated to [w] bits. *)
Definition trunc (w x : Z) : Z := x mod 2 ^ w.

(** [x[i]]. *)
Definition bit (x i : Z) : bool := Z.testbit x i.

(** [x[lo:hi]]. *)
Definition slice (x lo hi : Z) : Z := Z.land (Z.shiftr x lo) (Z.ones (hi - lo)).

(** [Replicate(v, n)] for a [w]-bit [v]: [Cat(v, ..., v)], first operand
    in the low bits. *)
Fixpoint Replicate (w v : Z) (n : nat) : Z :=
  match n with
  | O => 0
  | S k => Z.lor (trunc w v) (Z.shiftl (Replicate w v k) w)
  end.

(** [range(n)]. *)
Definition range (n : Z) : list Z := map Z.of_nat (seq 0 (Z.to_nat n)).

(** [Cat(b0, b1, ...)] of one-bit values. *)
Fixpoint Cat (bs : list bool) : Z :=
  match bs with
  | [] => 0
  | b :: bs' => Z.b2z b + 2 * Cat bs'
  end.

End Migen.

(** ** Elaboration errors *)

Inductive exn : Type :=
| AssertionError   (* a failed [assert] *)
| ValueError.      (* raised by [stream.Converter] *)

Definition result (A : Type) : Type := (exn + A)%type.

Definition raise {A : Type} (e : exn) : result A := inl e.
Definition ret {A : Type} (a : A) : result A := inr a.
Definition bind {A B : Type} (m : result A) (k : A -> result B) : result B :=
  match m with
  | inl e => inl e
  | inr a => k a
  end.

Notation "x <- m ;; k" := (bind m (fun x => k))
  (at level 61, m at next level, right associativity).

(** [assert c]. *)
Definition assert (c : bool) : result unit :=
  if c then ret tt else raise AssertionError.

(** [rate in [4,6,8]]. *)
Definition rate_in_4_6_8 (rate : Z) : bool := existsb (Z.eqb rate) [4; 6; 8].

(** ** Synchronous machines *)

Section Synchronous.

Variables Regs In Out : Type.
(** values of the combinational signals during a cycle *)
Variable comb : Regs -> In -> Out.
(** values of the registers after the clock edge ending the cycle *)
Variable sync : Regs -> In -> Regs.

(** Outputs cycle by cycle. *)
Fixpoint simulate (r : Regs) (ins : list In) : list Out :=
  match ins with
  | [] => []
  | i :: ins' => comb r i :: simulate (sync r i) ins'
  end.

(** Registers as they read during each cycle. *)
Fixpoint regs_during (r : Regs) (ins : list In) : list Regs :=
  match ins with
  | [] => []
  | i :: ins' => r :: regs_during (sync r i) ins'
  end.

(** Registers after the last clock edge. *)
Fixpoint regs_after (r : Regs) (ins : list In) : Regs :=
  match ins with
  | [] => r
  | i :: ins' => regs_after (sync r i) ins'
  end.

End Synchronous.

Arguments simulate {Regs In Out} comb sync r ins.
Arguments regs_during {Regs In} sync r ins.
Arguments regs_after {Regs In} sync r ins.

(** [@ResetInserter()]: on an edge with [reset] asserted every register of
    the decorated module and of its submodules takes its reset value,
    whatever the module's own [sync] statements say. *)
Definition ResetInserter {Regs In : Type} (reset : In -> bool) (reset_value : Regs)
    (sync : Regs -> In -> Regs) : Regs -> In -> Regs :=
  fun r i => if reset i then reset_value else sync r i.

(** ** stream.Converter(nbits_from, nbits_to), down-converting *)

Module Converter.

(** Modelled from the spec: [stream.Converter] belongs to LiteX, not to
    this repository.  It is the "width-converting stage that reshapes a
    40-bit super-frame into rate-wide chunks, one per sample-clock
    cycle": a chunk index [mux] selects the slice of the sink word that
    is presented on the source, lowest slice first; the index advances
    on every cycle with a source transfer and returns to 0 after the
    last chunk.  The ratio of the two widths must be an integer, else
    construction raises. *)
Record t : Type := { nbits_from : Z; nbits_to : Z; ratio : Z }.

Definition init (nbits_from nbits_to : Z) : result t :=
  if negb (nbits_from mod nbits_to =? 0) then raise ValueError
  else ret {| nbits_from := nbits_from;
              nbits_to := nbits_to;
              ratio := nbits_from / nbits_to |}.

Record Regs : Type := { mux : Z }.

Definition reset_value : Regs := {| mux := 0 |}.

Definition last (c : t) (r : Regs) : bool := mux r =? ratio c - 1.

Definition source_valid (sink_valid : bool) : bool := sink_valid.

Definition sink_ready (c : t) (r : Regs) (source_ready : bool) : bool :=
  last c r && source_ready.

Definition source_data (c : t) (r : Regs) (sink_data : Z) : Z :=
  Migen.slice sink_data (mux r * nbits_to c) ((mux r + 1) * nbits_to c).

Definition sync (c : t) (r : Regs) (sink_valid source_ready : bool) : Regs :=
  if source_valid sink_valid && source_ready then
    if last c r then {| mux := 0 |} else {| mux := mux r + 1 |}
  else r.

End Converter.

(** ** OSERDESE2 *)

Module OSERDESE2.

(** The parallel inputs [D1 .. D<rate>] as wired by
    [{f"i_D{i+1}" : word[i] for i in range(rate)}]: position [i] of the
    list is pin [D<i+1>]. *)
Definition D_pins (rate word : Z) : list bool :=
  map (Migen.bit word) (Migen.range rate).

(** Modelled from the spec: the vendor primitive is not in the source;
    it "pulses out bit-serially" the word on its parallel inputs, one
    word per sample-clock cycle, [D1] first. *)
Definition OQ (cycles : list (list bool)) : list bool := List.concat cycles.

End OSERDESE2.

(** ** _S7SerdesClocking *)

Module _S7SerdesClocking.

(** What the constructor instantiates. *)
Inductive logic : Type :=
| Master (converter : Converter.t)   (* converter, OSERDESE2, DifferentialOutput *)
| Slave                              (* DifferentialInput *)
| Neither.                           (* [mode] is neither string: no branch is taken *)

Record t : Type := { rate : Z; body : logic }.

Definition init (mode : string) (rate : Z) : result t :=
  _ <- assert (rate_in_4_6_8 rate) ;;
  if String.eqb mode "master"%string then
    converter <- Converter.init 40 rate ;;
    ret {| rate := rate; body := Master converter |}
  else if String.eqb mode "slave"%string then
    ret {| rate := rate; body := Slave |}
  else
    ret {| rate := rate; body := Neither |}.

(** [Signal(10, reset=0b1111100000)]: never assigned, so it reads its
    reset value on every cycle. *)
Definition pattern : Z := 992.  (* 0b1111100000 *)

(** The registers: those of the converter (the chunk index stays idle
    when no converter was instantiated). *)
Definition Regs : Type := Converter.Regs.

Definition reset_value : Regs := Converter.reset_value.

(** Signals driven in master mode. *)
Record Out : Type := {
  converter_sink_valid : bool;
  converter_source_ready : bool;
  converter_sink_data : Z;
  converter_source_data : Z;
  oserdese2_OCE : bool;
  oserdese2_D : list bool
}.

Definition comb (c : t) (r : Regs) : option Out :=
  match body c with
  | Master converter =>
      let sink_data := Migen.Replicate 10 pattern 4 in
      let source_data := Converter.source_data converter r sink_data in
      Some {| converter_sink_valid := true;
              converter_source_ready := true;
              converter_sink_data := sink_data;
              converter_source_data := source_data;
              oserdese2_OCE := true;
              oserdese2_D := OSERDESE2.D_pins (rate c) source_data |}
  | Slave | Neither => None
  end.

Definition sync (c : t) (r : Regs) : Regs :=
  match body c with
  | Master converter => Converter.sync converter r true true
  | Slave | Neither => r
  end.

End _S7SerdesClocking.

(** ** _S7SerdesTX *)

Module _S7SerdesTX.

Record t : Type := { rate : Z }.

Definition init (rate : Z) : result t :=
  _ <- assert (rate_in_4_6_8 rate) ;;
  ret {| rate := rate |}.

(** Driven by the environment: the control inputs, the producer on
    [sink], and the [TXDatapath] submodule (liteiclink/serwb/datapath.py,
    the external line-coding datapath). *)
Record In : Type := {
  idle : bool;
  comma : bool;
  sink_valid : bool;
  sink_data : Z;
  datapath_sink_ready : bool;
  datapath_source_valid : bool;
  datapath_source_data : Z
}.

Record Out : Type := {
  sink_ready : bool;              (* sink.connect(datapath.sink) *)
  datapath_sink_valid : bool;
  datapath_sink_data : Z;
  datapath_source_ready : bool;   (* datapath.source.ready.eq(1) *)
  datapath_idle : bool;
  datapath_comma : bool;
  data : Z;                       (* Signal(rate) *)
  oserdese2_OCE : bool;
  oserdese2_D : list bool
}.

Definition comb (c : t) (i : In) : Out :=
  let data := Migen.trunc (rate c) (datapath_source_data i) in
  {| sink_ready := datapath_sink_ready i;
     datapath_sink_valid := sink_valid i;
     datapath_sink_data := Migen.trunc 32 (sink_data i);
     datapath_source_ready := true;
     datapath_idle := idle i;
     datapath_comma := comma i;
     data := data;
     oserdese2_OCE := true;
     oserdese2_D := OSERDESE2.D_pins (rate c) data |}.

End _S7SerdesTX.

(** ** _S7SerdesRX *)

Module _S7SerdesRX.

Record t : Type := { rate : Z }.

Definition init (rate : Z) : result t :=
  _ <- assert (rate_in_4_6_8 rate) ;;
  ret {| rate := rate |}.

(** [_shift = Signal(3)]. *)
Record Regs : Type := { _shift : Z }.

Definition reset_value : Regs := {| _shift := 0 |}.

(** Driven by the environment: the three control inputs, the consumer
    on [source], the outputs [Q1 .. Q<rate>] of the ISERDESE2 (position
    [k] of the list is pin [Q<k+1>]) and the [RXDatapath] submodule
    (liteiclink/serwb/datapath.py, the external line-coding datapath). *)
Record In : Type := {
  delay_rst : bool;
  delay_inc : bool;
  shift : bool;
  source_ready : bool;
  iserdese2_Q : list bool;
  datapath_source_valid : bool;
  datapath_source_data : Z;
  datapath_idle : bool;
  datapath_comma : bool
}.

Record Out : Type := {
  idelaye2_LD : bool;
  idelaye2_CE : bool;
  idelaye2_LDPIPEEN : bool;
  idelaye2_INC : bool;
  iserdese2_CE1 : bool;
  iserdese2_BITSLIP : bool;
  data : Z;                      (* Signal(rate) *)
  datapath_sink_valid : bool;
  datapath_sink_data : Z;
  datapath_shift : bool;
  datapath_source_ready : bool;  (* datapath.source.connect(source) *)
  source_valid : bool;
  source_data : Z;
  idle : bool;
  comma : bool
}.

(** [{f"o_Q{rate-i}" : data[i] for i in range(rate)}]. *)
Definition data_of_Q (rate : Z) (Q : list bool) : Z :=
  Migen.Cat (map (fun i => nth (Z.to_nat (rate - i - 1)) Q false) (Migen.range rate)).

Definition comb (c : t) (r : Regs) (i : In) : Out :=
  let data := data_of_Q (rate c) (iserdese2_Q i) in
  {| idelaye2_LD := delay_rst i;
     idelaye2_CE := delay_inc i;
     idelaye2_LDPIPEEN := false;
     idelaye2_INC := true;
     iserdese2_CE1 := true;
     iserdese2_BITSLIP := shift i;
     data := data;
     datapath_sink_valid := true;
     datapath_sink_data := data;
     datapath_shift := shift i && (_shift r =? 7);   (* 0b111 *)
     datapath_source_ready := source_ready i;
     source_valid := datapath_source_valid i;
     source_data := Migen.trunc 32 (datapath_source_data i);
     idle := datapath_idle i;
     comma := datapath_comma i |}.

(** [self.sync += If(self.shift, _shift.eq(_shift + 1))]. *)
Definition sync (r : Regs) (i : In) : Regs :=
  if shift i then {| _shift := Migen.trunc 3 (_shift r + 1) |} else r.

End _S7SerdesRX.

(** ** ISERDESE2 *)

Module ISERDESE2.

(** Modelled from the spec: the vendor primitive is not in the source.
    "Asserting [bit_slip] for one sample-clock cycle rotates the internal
    capture window by exactly one bit position"; the window position is
    counted modulo the deserialisation width. *)
Definition bitslip (rate : Z) (window : Z) (BITSLIP : bool) : Z :=
  if BITSLIP then (window + 1) mod rate else window.

(** The window position after a run, from the values on the [BITSLIP]
    pin cycle by cycle. *)
Definition window_after (rate : Z) (window : Z) (pin : list bool) : Z :=
  fold_left (bitslip rate) pin window.

End ISERDESE2.

(** ** S7Serdes *)

Module S7Serdes.

Record t : Type := {
  clocking : _S7SerdesClocking.t;
  tx : _S7SerdesTX.t;
  rx : _S7SerdesRX.t
}.

Definition init (mode : string) (rate : Z) : result t :=
  clocking <- _S7SerdesClocking.init mode rate ;;
  tx <- _S7SerdesTX.init rate ;;
  rx <- _S7SerdesRX.init rate ;;
  ret {| clocking := clocking; tx := tx; rx := rx |}.

(** All registers below the decorated class. *)
Record Regs : Type := {
  clocking_regs : _S7SerdesClocking.Regs;
  rx_regs : _S7SerdesRX.Regs
}.

(** The values registers have in a fresh instance (Migen initialises
    every register to its reset value). *)
Definition reset_value : Regs :=
  {| clocking_regs := _S7SerdesClocking.reset_value;
     rx_regs := _S7SerdesRX.reset_value |}.

(** [reset] is the input added by the decorator. *)
Record In : Type := {
  reset : bool;
  tx_in : _S7SerdesTX.In;
  rx_in : _S7SerdesRX.In
}.

Record Out : Type := {
  clocking_out : option _S7SerdesClocking.Out;
  tx_out : _S7SerdesTX.Out;
  rx_out : _S7SerdesRX.Out
}.

Definition comb (c : t) (r : Regs) (i : In) : Out :=
  {| clocking_out := _S7SerdesClocking.comb (clocking c) (clocking_regs r);
     tx_out := _S7SerdesTX.comb (tx c) (tx_in i);
     rx_out := _S7SerdesRX.comb (rx c) (rx_regs r) (rx_in i) |}.

(** The [sync] statements of the submodules, before the decorator. *)
Definition sync_undecorated (c : t) (r : Regs) (i : In) : Regs :=
  {| clocking_regs := _S7SerdesClocking.sync (clocking c) (clocking_regs r);
     rx_regs := _S7SerdesRX.sync (rx_regs r) (rx_in i) |}.

Definition sync (c : t) : Regs -> In -> Regs :=
  ResetInserter reset reset_value (sync_undecorated c).

(** A run of a fresh instance. *)
Definition run (c : t) (ins : list In) : list Out :=
  simulate (comb c) (sync c) reset_value ins.

End S7Serdes.

(** ** Observations on a lane *)

(** The external shift request of a cycle. *)
Definition request (i : S7Serdes.In) : bool := _S7SerdesRX.shift (S7Serdes.rx_in i).

(** The paced shift signal, [self.shift & (_shift == 0b111)]. *)
Definition effective_slip (o : S7Serdes.Out) : bool :=
  _S7SerdesRX.datapath_shift (S7Serdes.rx_out o).

(** The value on the deserializer primitive's [BITSLIP] pin. *)
Definition bitslip_pin (o : S7Serdes.Out) : bool :=
  _S7SerdesRX.iserdese2_BITSLIP (S7Serdes.rx_out o).

(** The phase counter. *)
Definition phase (r : S7Serdes.Regs) : Z := _S7SerdesRX._shift (S7Serdes.rx_regs r).

(** The chunk index of the clock generator's converter. *)
Definition chunk (r : S7Serdes.Regs) : Z := Converter.mux (S7Serdes.clocking_regs r).

(** Number of cycles on which a one-bit signal is asserted. *)
Definition pulses (l : list bool) : nat := count_occ bool_dec l true.

(** Effective slips of a run that starts from registers [r]. *)
Definition effective_slips (c : S7Serdes.t) (r : S7Serdes.Regs)
    (ins : list S7Serdes.In) : list bool :=
  map effective_slip (simulate (S7Serdes.comb c) (S7Serdes.sync c) r ins).

(** The phase counter as it reads during each cycle of a run from [r]. *)
Definition phases (c : S7Serdes.t) (r : S7Serdes.Regs) (ins : list S7Serdes.In) : list Z :=
  map phase (regs_during (S7Serdes.sync c) r ins).

(** The words on the parallel inputs of the clock generator's serializer,
    cycle by cycle ([[]] on a cycle without generator). *)
Definition refclk_words (outs : list S7Serdes.Out) : list (list bool) :=
  map (fun o => match S7Serdes.clocking_out o with
                | Some k => _S7SerdesClocking.oserdese2_D k
                | None => []
                end) outs.

(** The serialized reference clock of a run. *)
Definition refclk (outs : list S7Serdes.Out) : list bool :=
  OSERDESE2.OQ (refclk_words outs).

(** ** Concrete stimuli *)

Definition quiet_tx : _S7SerdesTX.In :=
  {| _S7SerdesTX.idle := false;
     _S7SerdesTX.comma := false;
     _S7SerdesTX.sink_valid := false;
     _S7SerdesTX.sink_data := 0;
     _S7SerdesTX.datapath_sink_ready := false;
     _S7SerdesTX.datapath_source_valid := false;
     _S7SerdesTX.datapath_source_data := 0 |}.

Definition rx_stimulus (shift : bool) : _S7SerdesRX.In :=
  {| _S7SerdesRX.delay_rst := false;
     _S7SerdesRX.delay_inc := false;
     _S7SerdesRX.shift := shift;
     _S7SerdesRX.source_ready := false;
     _S7SerdesRX.iserdese2_Q := [];
     _S7SerdesRX.datapath_source_valid := false;
     _S7SerdesRX.datapath_source_data := 0;
     _S7SerdesRX.datapath_idle := false;
     _S7SerdesRX.datapath_comma := false |}.

(** A cycle with the given values on [reset] and [shift], everything else
    low. *)
Definition cycle (reset shift : bool) : S7Serdes.In :=
  {| S7Serdes.reset := reset;
     S7Serdes.tx_in := quiet_tx;
     S7Serdes.rx_in := rx_stimulus shift |}.

(** Lanes used as examples. *)
Definition lane (clocking : _S7SerdesClocking.logic) (rate : Z) : S7Serdes.t :=
  {| S7Serdes.clocking := {| _S7SerdesClocking.rate := rate; _S7SerdesClocking.body := clocking |};
     S7Serdes.tx := {| _S7SerdesTX.rate := rate |};
     S7Serdes.rx := {| _S7SerdesRX.rate := rate |} |}.

Definition master8 : S7Serdes.t :=
  lane (_S7SerdesClocking.Master
          {| Converter.nbits_from := 40; Converter.nbits_to := 8; Converter.ratio := 5 |}) 8.

Definition slave6 : S7Serdes.t := lane _S7SerdesClocking.Slave 6.

(** A cycle of a held request: [shift] high, [reset] low. *)
Definition held (i : S7Serdes.In) : Prop :=
  request i = true /\ S7Serdes.reset i = false.

(** Three cycles of request followed by one without. *)
Definition three_requests_then_none : list S7Serdes.In :=
  [cycle false true; cycle false true; cycle false true; cycle false false].

(** Bit [t] of the endless repetition of the 10-bit training pattern,
    lowest bit first. *)
Definition training_bit (t : nat) : bool :=
  Z.testbit _S7SerdesClocking.pattern (Z.of_nat t mod 10).

(** The serialized reference clock of a run that starts from registers
    [r]. *)
Definition refclk_from (c : S7Serdes.t) (r : S7Serdes.Regs) (ins : list S7Serdes.In) : list bool :=
  refclk (simulate (S7Serdes.comb c) (S7Serdes.sync c) r ins).

(** A cycle with the link reset low. *)
Definition no_reset (i : S7Serdes.In) : Prop := S7Serdes.reset i = false.

(** A reset in the second of three cycles. *)
Definition reset_in_second_cycle : list S7Serdes.In :=
  [cycle false false; cycle true false; cycle false false].

(** The master lane that construction yields for [rate]. *)
Definition master (rate : Z) : S7Serdes.t :=
  lane (_S7SerdesClocking.Master
          {| Converter.nbits_from := 40; Converter.nbits_to := rate;
             Converter.ratio := 40 / rate |}) rate.

(** The lane that construction yields for a mode that is not master. *)
Definition unclocked_body (mode : string) : _S7SerdesClocking.logic :=
  if String.eqb mode "slave"%string then _S7SerdesClocking.Slave
  else _S7SerdesClocking.Neither.

(** Five low bits, then five high bits, and so on: bit [t] of a line that
    carries 1111100000 again and again, lowest bit first. *)
Definition square_wave (t : nat) : bool := 5 <=? Z.of_nat t mod 10.

(** The ten windows of 10 consecutive bits that occur on such a line. *)
Definition pattern_windows : list (list bool) :=
  map (fun k => map (fun j => square_wave (k + j)) (seq 0 10)) (seq 0 10).

(** A cycle of request, then a cycle of reset. *)
Definition request_then_reset : list S7Serdes.In :=
  [cycle false true; cycle true false].

(** Number of cycles of a run on which the request is high. *)
Definition requested (ins : list S7Serdes.In) : nat := pulses (map request ins).

(** The words on the parallel inputs of the data serializer, cycle by
    cycle. *)
Definition tx_words (outs : list S7Serdes.Out) : list (list bool) :=
  map (fun o => _S7SerdesTX.oserdese2_D (S7Serdes.tx_out o)) outs.

(** A cycle in which the TX datapath presents the word [w]. *)
Definition tx_stimulus (w : Z) : _S7SerdesTX.In :=
  {| _S7SerdesTX.idle := false;
     _S7SerdesTX.comma := false;
     _S7SerdesTX.sink_valid := false;
     _S7SerdesTX.sink_data := 0;
     _S7SerdesTX.datapath_sink_ready := false;
     _S7SerdesTX.datapath_source_valid := true;
     _S7SerdesTX.datapath_source_data := w |}.

Definition cycle_with_word (w : Z) : S7Serdes.In :=
  {| S7Serdes.reset := false;
     S7Serdes.tx_in := tx_stimulus w;
     S7Serdes.rx_in := rx_stimulus false |}.

(** A cycle in which the deserializer presents the pins [Q]. *)
Definition rx_sample (Q : list bool) : _S7SerdesRX.In :=
  {| _S7SerdesRX.delay_rst := false;
     _S7SerdesRX.delay_inc := false;
     _S7SerdesRX.shift := false;
     _S7SerdesRX.source_ready := false;
     _S7SerdesRX.iserdese2_Q := Q;
     _S7SerdesRX.datapath_source_valid := false;
     _S7SerdesRX.datapath_source_data := 0;
     _S7SerdesRX.datapath_idle := false;
     _S7SerdesRX.datapath_comma := false |}.

(** Eight requests, each followed by a cycle without request. *)
Definition spaced_requests : list S7Serdes.In :=
  List.concat (repeat [cycle false true; cycle false false] 8).

(** * Properties *)

(** ** Runs *)

Section Runs.

Context {Regs In Out : Type}.
Variable comb : Regs -> In -> Out.
Variable sync : Regs -> In -> Regs.

Lemma simulate_length : forall ins r, length (simulate comb sync r ins) = length ins.
Proof. induction ins as [|i ins IH]; intro r; simpl; [reflexivity | now rewrite IH]. Qed.

Lemma simulate_app : forall ins1 ins2 r,
  simulate comb sync r (ins1 ++ ins2) =
  simulate comb sync r ins1 ++ simulate comb sync (regs_after sync r ins1) ins2.
Proof.
  induction ins1 as [|i ins1 IH]; intros ins2 r; simpl; [reflexivity | now rewrite IH].
Qed.

Lemma regs_after_app : forall ins1 ins2 r,
  regs_after sync r (ins1 ++ ins2) = regs_after sync (regs_after sync r ins1) ins2.
Proof. induction ins1 as [|i ins1 IH]; intros ins2 r; simpl; [reflexivity | apply IH]. Qed.

Lemma simulate_firstn : forall n ins r,
  firstn n (simulate comb sync r ins) = simulate comb sync r (firstn n ins).
Proof.
  induction n as [|n IH]; intros [|i ins] r; simpl; try reflexivity.
  now rewrite IH.
Qed.

Lemma simulate_skipn : forall n ins r,
  skipn n (simulate comb sync r ins) =
  simulate comb sync (regs_after sync r (firstn n ins)) (skipn n ins).
Proof.
  induction n as [|n IH]; intros [|i ins] r; simpl; try reflexivity.
  apply IH.
Qed.

End Runs.

(** ** The phase counter *)

Definition phase_in_range (r : S7Serdes.Regs) : Prop := 0 <= phase r <= 7.

Lemma phase_reset_value : phase S7Serdes.reset_value = 0.
Proof. reflexivity. Qed.

Lemma phase_sync : forall c r i,
  phase (S7Serdes.sync c r i) =
  if S7Serdes.reset i then 0
  else if request i then (phase r + 1) mod 8 else phase r.
Proof.
  intros c r i. unfold S7Serdes.sync, ResetInserter, request, phase.
  destruct (S7Serdes.reset i); [reflexivity|]. simpl.
  unfold _S7SerdesRX.sync. destruct (_S7SerdesRX.shift (S7Serdes.rx_in i)); reflexivity.
Qed.

Lemma effective_slip_comb : forall c r i,
  effective_slip (S7Serdes.comb c r i) = request i && (phase r =? 7).
Proof. reflexivity. Qed.

Lemma bitslip_pin_comb : forall c r i, bitslip_pin (S7Serdes.comb c r i) = request i.
Proof. reflexivity. Qed.

Lemma succ_mod_8 : forall p, 0 <= p <= 7 ->
  (p + 1) mod 8 = if p =? 7 then 0 else p + 1.
Proof.
  intros p Hp. destruct (Z.eqb_spec p 7) as [->|Hne]; [reflexivity|].
  apply Z.mod_small. lia.
Qed.

Lemma phase_in_range_reset : phase_in_range S7Serdes.reset_value.
Proof. unfold phase_in_range. rewrite phase_reset_value. lia. Qed.

Lemma phase_in_range_sync : forall c r i,
  phase_in_range r -> phase_in_range (S7Serdes.sync c r i).
Proof.
  unfold phase_in_range. intros c r i Hr. rewrite phase_sync.
  destruct (S7Serdes.reset i); [lia|].
  destruct (request i); [|exact Hr].
  rewrite succ_mod_8 by exact Hr. destruct (Z.eqb_spec (phase r) 7); lia.
Qed.

Lemma phase_in_range_after : forall c ins r,
  phase_in_range r -> phase_in_range (regs_after (S7Serdes.sync c) r ins).
Proof.
  induction ins as [|i ins IH]; intros r Hr; simpl; [exact Hr|].
  apply IH, phase_in_range_sync, Hr.
Qed.

Create HintDb phase.

#[local] Hint Resolve phase_in_range_reset phase_in_range_sync phase_in_range_after : phase.

Lemma pulses_cons : forall b l,
  pulses (b :: l) = ((if b then 1 else 0) + pulses l)%nat.
Proof. intros [|] l; reflexivity. Qed.

(** Every effective slip consumes eight counts of the phase counter. *)
Lemma effective_slips_budget : forall c ins r,
  phase_in_range r ->
  8 * Z.of_nat (pulses (effective_slips c r ins)) <= phase r + Z.of_nat (length ins).
Proof.
  intros c. induction ins as [|i ins IH]; intros r Hr.
  - unfold phase_in_range in Hr. simpl. lia.
  - unfold effective_slips in *. cbn [simulate map length].
    rewrite pulses_cons, effective_slip_comb.
    specialize (IH (S7Serdes.sync c r i) (phase_in_range_sync c r i Hr)).
    rewrite phase_sync in IH. unfold phase_in_range in Hr.
    destruct (S7Serdes.reset i), (request i); cbn [andb];
      try rewrite succ_mod_8 in IH by exact Hr;
      destruct (Z.eqb_spec (phase r) 7); lia.
Qed.

Lemma effective_slips_request_low : forall c ins r,
  Forall (fun i => request i = false) ins ->
  Forall (fun o => effective_slip o = false)
         (simulate (S7Serdes.comb c) (S7Serdes.sync c) r ins).
Proof.
  intros c. induction ins as [|i ins IH]; intros r Hlow; simpl; constructor.
  - rewrite effective_slip_comb. inversion Hlow as [|? ? Hi ?]; subst. now rewrite Hi.
  - apply IH. now inversion Hlow.
Qed.

Lemma rx_init_supported : forall rate, In rate [4; 6; 8] ->
  _S7SerdesRX.init rate = inr {| _S7SerdesRX.rate := rate |}.
Proof.
  intros rate [<-|[<-|[<-|[]]]]; reflexivity.
Qed.

(** C1.  For every rate in {4, 6, 8} the receiver is built, and in every
    lane that contains it, for every sequence of inputs (shift requests,
    resets and everything else), the paced shift signal
    [shift & (_shift == 0b111)] is asserted at most once in any window of
    8 consecutive sample-clock cycles of the run, and on no cycle at all
    when the request is low throughout. *)
Theorem effective_slip_at_most_once_in_8_cycles :
  forall rate, In rate [4; 6; 8] ->
  exists rx, _S7SerdesRX.init rate = inr rx /\
  forall c, S7Serdes.rx c = rx ->
  forall ins,
    (forall k, (pulses (firstn 8 (skipn k (map effective_slip (S7Serdes.run c ins)))) <= 1)%nat) /\
    (Forall (fun i => request i = false) ins ->
     Forall (fun o => effective_slip o = false) (S7Serdes.run c ins)).
Proof.
  intros rate Hrate. exists {| _S7SerdesRX.rate := rate |}.
  split; [apply rx_init_supported, Hrate|].
  intros c _ ins. split.
  - intro k. unfold S7Serdes.run.
    rewrite skipn_map, firstn_map, simulate_skipn, simulate_firstn.
    set (r := regs_after (S7Serdes.sync c) S7Serdes.reset_value (firstn k ins)).
    assert (Hr : phase_in_range r) by (subst r; auto with phase).
    pose proof (effective_slips_budget c (firstn 8 (skipn k ins)) r Hr) as Hb.
    unfold effective_slips in Hb.
    pose proof (firstn_le_length 8 (skipn k ins)) as Hlen.
    unfold phase_in_range in Hr. lia.
  - apply effective_slips_request_low.
Qed.

Lemma effective_slip_at_most_once_in_8_cycles_witness :
  In 6 [4; 6; 8] /\
  (pulses (firstn 8 (skipn 3 (map effective_slip
     (S7Serdes.run slave6 (repeat (cycle false true) 20))))) <= 1)%nat.
Proof.
  split; [simpl; tauto|].
  destruct (effective_slip_at_most_once_in_8_cycles 6) as [rx [Hrx H]]; [simpl; tauto|].
  simpl in Hrx. injection Hrx as <-.
  apply (H slave6 eq_refl).
Defined.

(** ** A held request *)

Lemma phase_sync_held : forall c r i, phase_in_range r -> held i ->
  phase (S7Serdes.sync c r i) = (phase r + 1) mod 8.
Proof.
  intros c r i _ [Hreq Hrst]. rewrite phase_sync, Hreq, Hrst. reflexivity.
Qed.

Lemma phases_held : forall c ins r, phase_in_range r -> Forall held ins ->
  phases c r ins = map (fun k => (phase r + Z.of_nat k) mod 8) (seq 0 (length ins)).
Proof.
  intros c. unfold phases. induction ins as [|i ins IH]; intros r Hr Hheld; [reflexivity|].
  inversion Hheld as [|? ? Hi Hins]; subst.
  cbn [regs_during map length seq]. f_equal.
  - unfold phase_in_range in Hr. rewrite Z.add_0_r, Z.mod_small; lia.
  - rewrite IH by (auto with phase). rewrite <- seq_shift, map_map.
    apply map_ext. intro k. rewrite (phase_sync_held c r i Hr Hi).
    rewrite Zplus_mod_idemp_l. f_equal. lia.
Qed.

Lemma phase_after_held : forall c ins r, phase_in_range r -> Forall held ins ->
  phase (regs_after (S7Serdes.sync c) r ins) = (phase r + Z.of_nat (length ins)) mod 8.
Proof.
  intros c. induction ins as [|i ins IH]; intros r Hr Hheld.
  - unfold phase_in_range in Hr. simpl. rewrite Z.add_0_r, Z.mod_small; lia.
  - inversion Hheld as [|? ? Hi Hins]; subst. cbn [regs_after length].
    rewrite IH by (auto with phase). rewrite (phase_sync_held c r i Hr Hi).
    rewrite Zplus_mod_idemp_l. f_equal. lia.
Qed.

Lemma effective_slips_held : forall c ins r, phase_in_range r -> Forall held ins ->
  effective_slips c r ins = map (fun p => p =? 7) (phases c r ins).
Proof.
  intros c. unfold effective_slips, phases.
  induction ins as [|i ins IH]; intros r Hr Hheld; [reflexivity|].
  inversion Hheld as [|? ? Hi Hins]; subst.
  cbn [simulate regs_during map]. rewrite effective_slip_comb.
  destruct Hi as [Hreq Hrst]. rewrite Hreq. cbn [andb]. f_equal.
  apply IH; auto with phase.
Qed.

Lemma effective_slips_held_count : forall c ins r, phase_in_range r -> Forall held ins ->
  Z.of_nat (pulses (effective_slips c r ins)) = (phase r + Z.of_nat (length ins)) / 8.
Proof.
  intros c. induction ins as [|i ins IH]; intros r Hr Hheld.
  - unfold phase_in_range in Hr. cbn. rewrite Z.add_0_r, Z.div_small; lia.
  - inversion Hheld as [|? ? Hi Hins]; subst.
    specialize (IH (S7Serdes.sync c r i) (phase_in_range_sync c r i Hr) Hins).
    rewrite (phase_sync_held c r i Hr Hi), succ_mod_8 in IH by exact Hr.
    unfold effective_slips in *. cbn [simulate map length].
    rewrite pulses_cons, effective_slip_comb. destruct Hi as [Hreq _]. rewrite Hreq.
    cbn [andb]. unfold phase_in_range in Hr.
    destruct (Z.eqb_spec (phase r) 7) as [H7|H7].
    + rewrite H7 in *. replace (7 + Z.of_nat (S (length ins))) with (1 * 8 + Z.of_nat (length ins)) by lia.
      rewrite Z.div_add_l by lia. simpl Z.add in IH. lia.
    + replace (phase r + Z.of_nat (S (length ins))) with (phase r + 1 + Z.of_nat (length ins)) by lia.
      lia.
Qed.

Lemma bitslip_pins_are_requests : forall c ins r,
  map bitslip_pin (simulate (S7Serdes.comb c) (S7Serdes.sync c) r ins) = map request ins.
Proof.
  intros c. induction ins as [|i ins IH]; intro r; [reflexivity|].
  cbn [simulate map]. now rewrite bitslip_pin_comb, IH.
Qed.

Lemma requests_held : forall ins, Forall held ins ->
  map request ins = repeat true (length ins).
Proof.
  induction ins as [|i ins IH]; intro Hheld; [reflexivity|].
  inversion Hheld as [|? ? [Hreq _] Hins]; subst. cbn [map length repeat].
  now rewrite Hreq, IH.
Qed.

Lemma pulses_repeat_true : forall n, pulses (repeat true n) = n.
Proof. induction n as [|n IH]; [reflexivity|]. cbn [repeat]. rewrite pulses_cons, IH. reflexivity. Qed.

Lemma window_after_repeat_true : forall rate n w, 0 < rate -> 0 <= w < rate ->
  ISERDESE2.window_after rate w (repeat true n) = (w + Z.of_nat n) mod rate.
Proof.
  intros rate. unfold ISERDESE2.window_after.
  induction n as [|n IH]; intros w Hrate Hw.
  - simpl. rewrite Z.add_0_r, Z.mod_small; lia.
  - cbn [repeat fold_left]. unfold ISERDESE2.bitslip at 2.
    rewrite IH by (try apply Z.mod_pos_bound; lia).
    rewrite Zplus_mod_idemp_l. f_equal. lia.
Qed.

(** C2, as the claim states it, fails: the signal that reaches the
    deserializer (the [BITSLIP] pin of the ISERDESE2) is the raw request.
    In the first cycle of a fresh lane with [shift] high the pin is
    asserted although the phase counter reads 0, not 7. *)
Lemma deserializer_slip_not_gated :
  phase S7Serdes.reset_value = 0 /\
  bitslip_pin (S7Serdes.comb master8 S7Serdes.reset_value (cycle false true)) = true /\
  request (cycle false true) && (phase S7Serdes.reset_value =? 7) = false /\
  bitslip_pin (S7Serdes.comb master8 S7Serdes.reset_value (cycle false true)) <>
    request (cycle false true) && (phase S7Serdes.reset_value =? 7).
Proof. cbv. repeat split; discriminate. Qed.

(** C2, amended.  On every cycle, whatever the registers and the inputs,
    the shift signal forwarded to the RX datapath's word aligner is
    asserted exactly when the request is asserted and the phase counter
    reads 7 (all three bits set); the [BITSLIP] input of the deserializer
    primitive carries the request itself. *)
Theorem datapath_shift_gated_by_phase_counter :
  forall c r i,
    _S7SerdesRX.datapath_shift (S7Serdes.rx_out (S7Serdes.comb c r i)) =
      _S7SerdesRX.shift (S7Serdes.rx_in i) && (_S7SerdesRX._shift (S7Serdes.rx_regs r) =? 7) /\
    _S7SerdesRX.iserdese2_BITSLIP (S7Serdes.rx_out (S7Serdes.comb c r i)) =
      _S7SerdesRX.shift (S7Serdes.rx_in i).
Proof. intros c r i. split; reflexivity. Qed.

(** C3.  In a fresh lane (phase counter 0) whose request is held high,
    reset low, for 9 cycles: the paced shift signal is asserted exactly
    once, on the cycle of index 7; the phase counter reads 0, 1, ..., 7
    and then 0 again during the ninth cycle (the edge that ends the ninth
    cycle takes it to 1). *)
Theorem nine_cycles_of_held_request :
  forall c ins, length ins = 9%nat -> Forall held ins ->
    phase S7Serdes.reset_value = 0 /\
    map effective_slip (S7Serdes.run c ins) =
      [false; false; false; false; false; false; false; true; false] /\
    pulses (map effective_slip (S7Serdes.run c ins)) = 1%nat /\
    phases c S7Serdes.reset_value ins = [0; 1; 2; 3; 4; 5; 6; 7; 0] /\
    phase (regs_after (S7Serdes.sync c) S7Serdes.reset_value ins) = 1.
Proof.
  intros c ins Hlen Hheld.
  pose proof (effective_slips_held c ins _ phase_in_range_reset Hheld) as Hs.
  pose proof (phases_held c ins _ phase_in_range_reset Hheld) as Hp.
  pose proof (phase_after_held c ins _ phase_in_range_reset Hheld) as Ha.
  rewrite Hlen in Hp, Ha. rewrite Hp in Hs.
  unfold effective_slips in Hs. unfold S7Serdes.run.
  rewrite Hs, Hp, Ha. repeat split; reflexivity.
Qed.

Lemma nine_cycles_of_held_request_witness :
  length (repeat (cycle false true) 9) = 9%nat /\
  Forall held (repeat (cycle false true) 9) /\
  map effective_slip (S7Serdes.run master8 (repeat (cycle false true) 9)) =
    [false; false; false; false; false; false; false; true; false].
Proof.
  assert (Hlen : length (repeat (cycle false true) 9) = 9%nat) by reflexivity.
  assert (Hheld : Forall held (repeat (cycle false true) 9))
    by (repeat constructor).
  split; [exact Hlen|]. split; [exact Hheld|].
  exact (proj1 (proj2 (nine_cycles_of_held_request master8 _ Hlen Hheld))).
Defined.

(** C4, as the claim states it, fails: after three cycles of request the
    phase counter reads 3, and a cycle with the request low (reset low)
    leaves it at 3; it is not at 0. *)
Lemma phase_counter_not_held_at_zero :
  map request three_requests_then_none = [true; true; true; false] /\
  map S7Serdes.reset three_requests_then_none = [false; false; false; false] /\
  phases master8 S7Serdes.reset_value three_requests_then_none = [0; 1; 2; 3] /\
  phase (regs_after (S7Serdes.sync master8) S7Serdes.reset_value three_requests_then_none) = 3 /\
  phase (regs_after (S7Serdes.sync master8) S7Serdes.reset_value three_requests_then_none) <> 0.
Proof. cbv. repeat split; discriminate. Qed.

(** C4, amended.  On every cycle of every run of a fresh lane: with the
    link reset low, a cycle whose request is high advances the phase
    counter by one modulo 8 (7 is followed by 0) and a cycle whose request
    is low leaves it at the value it has, whatever that is; a cycle with
    the link reset high takes it to 0. *)
Theorem phase_counter_counts_requests :
  forall c ins i,
    phase (S7Serdes.sync c (regs_after (S7Serdes.sync c) S7Serdes.reset_value ins) i) =
      let p := phase (regs_after (S7Serdes.sync c) S7Serdes.reset_value ins) in
      if S7Serdes.reset i then 0
      else if request i then (if p =? 7 then 0 else p + 1)
      else p.
Proof.
  intros c ins i. cbv zeta. rewrite phase_sync.
  destruct (S7Serdes.reset i); [reflexivity|].
  destruct (request i); [|reflexivity].
  apply succ_mod_8. apply (phase_in_range_after c ins). apply phase_in_range_reset.
Qed.

(** C10.  On every cycle of every run the [BITSLIP] input of the ISERDESE2
    carries the external request, unmodified, while the shift signal of the
    RX datapath is the request gated by the phase counter.  Hence, in a
    fresh lane built for a rate in {4, 6, 8}, a request held for [n] cycles
    asserts [BITSLIP] on all [n] of them, advancing the primitive's capture
    window [n] positions, while the datapath sees [n / 8] shifts. *)
Theorem bitslip_pin_is_the_raw_request :
  forall c ins,
    map bitslip_pin (S7Serdes.run c ins) = map request ins /\
    map effective_slip (S7Serdes.run c ins) =
      map (fun ip => request (fst ip) && (snd ip =? 7))
          (combine ins (phases c S7Serdes.reset_value ins)) /\
    (In (_S7SerdesRX.rate (S7Serdes.rx c)) [4; 6; 8] -> Forall held ins ->
       pulses (map bitslip_pin (S7Serdes.run c ins)) = length ins /\
       Z.of_nat (pulses (map effective_slip (S7Serdes.run c ins))) = Z.of_nat (length ins) / 8 /\
       forall w, 0 <= w < _S7SerdesRX.rate (S7Serdes.rx c) ->
         ISERDESE2.window_after (_S7SerdesRX.rate (S7Serdes.rx c)) w
           (map bitslip_pin (S7Serdes.run c ins)) =
         (w + Z.of_nat (length ins)) mod _S7SerdesRX.rate (S7Serdes.rx c)).
Proof.
  intros c ins. unfold S7Serdes.run. rewrite bitslip_pins_are_requests.
  split; [reflexivity|]. split.
  - unfold phases. generalize S7Serdes.reset_value.
    induction ins as [|i ins IH]; intro r; [reflexivity|].
    cbn [simulate regs_during map combine fst snd]. rewrite effective_slip_comb.
    f_equal. apply IH.
  - intros Hrate Hheld. rewrite (requests_held ins Hheld), pulses_repeat_true.
    split; [reflexivity|]. split.
    + apply (effective_slips_held_count c ins _ phase_in_range_reset Hheld).
    + intros w Hw. apply window_after_repeat_true; [|exact Hw].
      destruct Hrate as [<-|[<-|[<-|[]]]]; lia.
Qed.

Lemma bitslip_pin_is_the_raw_request_witness :
  In (_S7SerdesRX.rate (S7Serdes.rx slave6)) [4; 6; 8] /\
  Forall held (repeat (cycle false true) 16) /\
  pulses (map bitslip_pin (S7Serdes.run slave6 (repeat (cycle false true) 16))) = 16%nat /\
  Z.of_nat (pulses (map effective_slip (S7Serdes.run slave6 (repeat (cycle false true) 16)))) = 2.
Proof.
  assert (Hrate : In (_S7SerdesRX.rate (S7Serdes.rx slave6)) [4; 6; 8]) by (simpl; tauto).
  assert (Hheld : Forall held (repeat (cycle false true) 16)) by (repeat constructor).
  split; [exact Hrate|]. split; [exact Hheld|].
  destruct (bitslip_pin_is_the_raw_request slave6 (repeat (cycle false true) 16))
    as [_ [_ H]].
  destruct (H Hrate Hheld) as [Hpin [Hslip _]].
  split; [exact Hpin | exact Hslip].
Defined.

(** ** The clock generator *)

Definition chunk_in_range (r : S7Serdes.Regs) : Prop := 0 <= chunk r <= 4.

Lemma master8_init : S7Serdes.init "master" 8 = inr master8.
Proof. reflexivity. Qed.

Lemma chunk_sync_master8 : forall r i,
  chunk (S7Serdes.sync master8 r i) =
  if S7Serdes.reset i then 0 else if chunk r =? 4 then 0 else chunk r + 1.
Proof.
  intros r i. unfold S7Serdes.sync, ResetInserter, chunk.
  destruct (S7Serdes.reset i); [reflexivity|]. cbn.
  unfold Converter.last. cbn.
  destruct (Converter.mux (S7Serdes.clocking_regs r) =? 4); reflexivity.
Qed.

Lemma chunk_in_range_sync : forall r i,
  chunk_in_range r -> chunk_in_range (S7Serdes.sync master8 r i).
Proof.
  unfold chunk_in_range. intros r i Hr. rewrite chunk_sync_master8.
  destruct (S7Serdes.reset i); [lia|].
  destruct (Z.eqb_spec (chunk r) 4); lia.
Qed.

(** The word on the serializer's inputs while the chunk index reads [m]
    is the slice of 8 training bits that starts at bit [8 * m]. *)
Lemma refclk_word_master8 : forall r i, chunk_in_range r ->
  refclk_words [S7Serdes.comb master8 r i] =
  [map (fun t => training_bit (Z.to_nat (8 * chunk r) + t)) (seq 0 8)].
Proof.
  intros [[m] rxr] i Hr. unfold chunk_in_range, chunk in *. cbn in Hr.
  assert (Hm : m = 0 \/ m = 1 \/ m = 2 \/ m = 3 \/ m = 4) by lia.
  destruct Hm as [->|[->|[->|[->| ->]]]]; reflexivity.
Qed.

Lemma seq_add_start : forall a n, seq a n = map (Nat.add a) (seq 0 n).
Proof.
  intros a n. revert a. induction n as [|n IH]; intro a; [reflexivity|].
  cbn [seq map]. rewrite Nat.add_0_r. f_equal.
  rewrite (IH (S a)), (IH 1%nat), map_map. apply map_ext. intro k. lia.
Qed.

Lemma training_bit_period : forall t, training_bit (40 + t) = training_bit t.
Proof.
  intro t. unfold training_bit. f_equal.
  replace (Z.of_nat (40 + t)) with (Z.of_nat t + 4 * 10) by lia.
  apply Z_mod_plus_full.
Qed.

(** With the reset low the generator emits the training bits in order,
    from the bit at which its current chunk starts. *)
Lemma refclk_from_master8 : forall ins r, chunk_in_range r -> Forall no_reset ins ->
  refclk_from master8 r ins =
  map (fun t => training_bit (Z.to_nat (8 * chunk r) + t)) (seq 0 (8 * length ins)).
Proof.
  unfold refclk_from, refclk, OSERDESE2.OQ.
  induction ins as [|i ins IH]; intros r Hr Hnr; [reflexivity|].
  inversion Hnr as [|? ? Hi Hins]; subst.
  cbn [simulate length]. 
  change (refclk_words (S7Serdes.comb master8 r i ::
            simulate (S7Serdes.comb master8) (S7Serdes.sync master8) (S7Serdes.sync master8 r i) ins))
    with (refclk_words [S7Serdes.comb master8 r i] ++
          refclk_words (simulate (S7Serdes.comb master8) (S7Serdes.sync master8)
                          (S7Serdes.sync master8 r i) ins)).
  rewrite concat_app, (refclk_word_master8 r i Hr). cbn [concat]. rewrite app_nil_r.
  rewrite (IH _ (chunk_in_range_sync r i Hr) Hins).
  replace (8 * S (length ins))%nat with (8 + 8 * length ins)%nat by lia.
  rewrite seq_app, map_app. f_equal.
  rewrite (seq_add_start (0 + 8)), map_map. apply map_ext. intro t.
  rewrite chunk_sync_master8. unfold no_reset in Hi. rewrite Hi.
  unfold chunk_in_range in Hr.
  destruct (Z.eqb_spec (chunk r) 4) as [H4|H4].
  - rewrite H4. change (Z.to_nat (8 * 0)) with 0%nat. change (Z.to_nat (8 * 4)) with 32%nat.
    rewrite <- (training_bit_period (0 + t)). f_equal.
  - f_equal. lia.
Qed.

Lemma window_of_training_bits : forall k n, (k + 10 <= n)%nat ->
  firstn 10 (skipn k (map training_bit (seq 0 n))) =
  map (fun j => training_bit (k + j)) (seq 0 10).
Proof.
  intros k n Hk. rewrite skipn_map, firstn_map, skipn_seq.
  replace (n - k)%nat with (10 + (n - k - 10))%nat by lia.
  rewrite seq_app, firstn_app, firstn_all2 by (rewrite length_seq; lia).
  rewrite length_seq, Nat.sub_diag, firstn_O, app_nil_r.
  rewrite (seq_add_start (0 + k)), map_map. reflexivity.
Qed.

Lemma training_bit_mod_10 : forall q j, training_bit (10 * q + j) = training_bit j.
Proof.
  intros q j. unfold training_bit. f_equal.
  replace (Z.of_nat (10 * q + j)) with (Z.of_nat j + Z.of_nat q * 10) by lia.
  apply Z_mod_plus_full.
Qed.

Lemma converter_fed_unconditionally : forall ins r,
  Forall (fun o => exists k, S7Serdes.clocking_out o = Some k /\
            _S7SerdesClocking.converter_sink_valid k = true /\
            _S7SerdesClocking.converter_source_ready k = true /\
            _S7SerdesClocking.converter_sink_data k =
              Migen.Replicate 10 _S7SerdesClocking.pattern 4)
         (simulate (S7Serdes.comb master8) (S7Serdes.sync master8) r ins).
Proof.
  induction ins as [|i ins IH]; intro r; cbn [simulate]; constructor; [|apply IH].
  eexists. split; [reflexivity|]. repeat split.
Qed.

Lemma training_bit_square_wave : forall t, training_bit t = square_wave t.
Proof.
  intro t. unfold training_bit, square_wave.
  pose proof (Z.mod_pos_bound (Z.of_nat t) 10 ltac:(lia)) as Hu.
  assert (Hcase : Z.of_nat t mod 10 = 0 \/ Z.of_nat t mod 10 = 1 \/ Z.of_nat t mod 10 = 2 \/
                  Z.of_nat t mod 10 = 3 \/ Z.of_nat t mod 10 = 4 \/ Z.of_nat t mod 10 = 5 \/
                  Z.of_nat t mod 10 = 6 \/ Z.of_nat t mod 10 = 7 \/ Z.of_nat t mod 10 = 8 \/
                  Z.of_nat t mod 10 = 9) by lia.
  repeat (destruct Hcase as [E | Hcase]; [rewrite E; reflexivity|]).
  rewrite Hcase. reflexivity.
Qed.

Lemma square_wave_mod_10 : forall q j, square_wave (10 * q + j) = square_wave j.
Proof. intros q j. rewrite <- !training_bit_square_wave. apply training_bit_mod_10. Qed.

Lemma window_in_pattern_windows : forall k,
  In (map (fun j => square_wave (k + j)) (seq 0 10)) pattern_windows.
Proof.
  intro k. unfold pattern_windows.
  apply in_map_iff. exists (k mod 10)%nat. split.
  - apply map_ext. intro j.
    rewrite (Nat.div_mod_eq k 10) at 2.
    rewrite <- Nat.add_assoc. symmetry. apply square_wave_mod_10.
  - apply in_seq. pose proof (Nat.mod_upper_bound k 10). lia.
Qed.

(** C5, as the claim states it, fails: the lane constructed with mode
    master and rate 8 does not emit the pattern whatever happens.  With the
    link reset asserted in the second cycle, the window of line bits 10 to
    19 holds a single 1 between nine 0s, which is none of the ten windows
    of the repeated pattern. *)
Lemma master_refclk_window_broken_by_reset :
  S7Serdes.init "master" 8 = inr master8 /\
  map S7Serdes.reset reset_in_second_cycle = [false; true; false] /\
  firstn 10 (skipn 10 (refclk (S7Serdes.run master8 reset_in_second_cycle))) =
    [false; false; false; false; false; true; false; false; false; false] /\
  ~ In (firstn 10 (skipn 10 (refclk (S7Serdes.run master8 reset_in_second_cycle))))
       pattern_windows.
Proof.
  split; [reflexivity|]. split; [reflexivity|]. split; [reflexivity|].
  intro H. vm_compute in H.
  repeat (destruct H as [H|H]; [discriminate H|]). exact H.
Qed.

(** C5, amended.  A lane constructed with mode master and rate 8 feeds its
    converter unconditionally (sink valid and source ready at 1) with the
    40-bit super-frame 0xF83E0F83E0, four copies of 1111100000, on every
    cycle of every run.  As long as the link reset stays low, the
    serialized reference clock is the endless repetition of the 10-bit
    pattern and nothing else: line bit [t] is bit [t mod 10] of 1111100000
    (five 0s, then five 1s), every window of 10 consecutive line bits is
    one of the ten windows of the repeated pattern, and every window that
    starts at a multiple of 10 reads 0000011111 in line order, that is the
    pattern itself, lowest bit first. *)
Theorem master_refclk_repeats_training_pattern :
  exists c, S7Serdes.init "master" 8 = inr c /\
  _S7SerdesClocking.pattern = 992 /\
  forall ins,
    Forall (fun o => exists k, S7Serdes.clocking_out o = Some k /\
              _S7SerdesClocking.converter_sink_valid k = true /\
              _S7SerdesClocking.converter_source_ready k = true /\
              _S7SerdesClocking.converter_sink_data k = 0xF83E0F83E0)
           (S7Serdes.run c ins) /\
    (Forall no_reset ins ->
       refclk (S7Serdes.run c ins) = map square_wave (seq 0 (8 * length ins)) /\
       (forall k, (k + 10 <= 8 * length ins)%nat ->
          firstn 10 (skipn k (refclk (S7Serdes.run c ins))) =
            map (fun j => square_wave (k + j)) (seq 0 10) /\
          In (firstn 10 (skipn k (refclk (S7Serdes.run c ins)))) pattern_windows) /\
       (forall q, (10 * q + 10 <= 8 * length ins)%nat ->
          firstn 10 (skipn (10 * q) (refclk (S7Serdes.run c ins))) =
            [false; false; false; false; false; true; true; true; true; true] /\
          Migen.Cat (firstn 10 (skipn (10 * q) (refclk (S7Serdes.run c ins)))) = 992)).
Proof.
  exists master8. split; [exact master8_init|]. split; [reflexivity|].
  intros ins. split; [apply converter_fed_unconditionally|].
  intro Hnr.
  assert (Hclk : refclk (S7Serdes.run master8 ins) = map training_bit (seq 0 (8 * length ins))).
  { apply (refclk_from_master8 ins S7Serdes.reset_value); [|exact Hnr].
    unfold chunk_in_range. cbn. lia. }
  assert (Hwin : forall k, (k + 10 <= 8 * length ins)%nat ->
            firstn 10 (skipn k (refclk (S7Serdes.run master8 ins))) =
            map (fun j => square_wave (k + j)) (seq 0 10)).
  { intros k Hk. rewrite Hclk, window_of_training_bits by exact Hk.
    apply map_ext. intro j. apply training_bit_square_wave. }
  split; [|split].
  - rewrite Hclk. apply map_ext, training_bit_square_wave.
  - intros k Hk. rewrite (Hwin k Hk). split; [reflexivity | apply window_in_pattern_windows].
  - intros q Hq. rewrite (Hwin _ Hq).
    rewrite (map_ext _ square_wave) by (intro j; apply square_wave_mod_10).
    split; reflexivity.
Qed.

Lemma master_refclk_repeats_training_pattern_witness :
  Forall no_reset (repeat (cycle false false) 2) /\
  refclk (S7Serdes.run master8 (repeat (cycle false false) 2)) =
    [false; false; false; false; false; true; true; true; true; true;
     false; false; false; false; false; true].
Proof.
  assert (Hnr : Forall no_reset (repeat (cycle false false) 2)) by (repeat constructor).
  split; [exact Hnr|].
  destruct master_refclk_repeats_training_pattern as [c [Hc [_ H]]].
  rewrite master8_init in Hc. injection Hc as <-.
  rewrite (proj1 (proj2 (H (repeat (cycle false false) 2)) Hnr)). reflexivity.
Defined.

(** ** Construction *)

Lemma rate_in_4_6_8_spec : forall rate, rate_in_4_6_8 rate = true <-> In rate [4; 6; 8].
Proof.
  intro rate. unfold rate_in_4_6_8. rewrite existsb_exists. split.
  - intros [x [Hin Heq]]. apply Z.eqb_eq in Heq. now subst.
  - intro Hin. exists rate. split; [exact Hin | apply Z.eqb_refl].
Qed.

Lemma rate_not_in_4_6_8 : forall rate, ~ In rate [4; 6; 8] -> rate_in_4_6_8 rate = false.
Proof.
  intros rate Hn. destruct (rate_in_4_6_8 rate) eqn:E; [|reflexivity].
  exfalso. apply Hn, rate_in_4_6_8_spec, E.
Qed.

(** C6, as the claim states it, fails for the mode: a lane is constructed
    for a mode that is neither master nor slave. *)
Lemma unsupported_mode_is_constructed :
  "duplex"%string <> "master"%string /\
  "duplex"%string <> "slave"%string /\
  S7Serdes.init "duplex" 8 = inr (lane _S7SerdesClocking.Neither 8).
Proof. repeat split; discriminate. Qed.

(** C6, amended.  Constructing a lane with a rate outside {4, 6, 8} fails
    the assertion of the first submodule, whatever the mode, so no lane
    exists.  The mode is not checked: with a supported rate and a mode that
    is neither master nor slave the lane is constructed, without clock
    generator and without clock input buffer. *)
Theorem unsupported_rate_is_fatal :
  forall mode rate,
    (~ In rate [4; 6; 8] -> S7Serdes.init mode rate = inl AssertionError) /\
    (In rate [4; 6; 8] -> mode <> "master"%string -> mode <> "slave"%string ->
       S7Serdes.init mode rate = inr (lane _S7SerdesClocking.Neither rate)).
Proof.
  intros mode rate. split.
  - intro Hn. unfold S7Serdes.init, _S7SerdesClocking.init.
    rewrite (rate_not_in_4_6_8 rate Hn). reflexivity.
  - intros Hin Hm Hs. apply rate_in_4_6_8_spec in Hin.
    unfold S7Serdes.init, _S7SerdesClocking.init, _S7SerdesTX.init, _S7SerdesRX.init.
    rewrite Hin. apply String.eqb_neq in Hm, Hs. cbn. rewrite Hm, Hs. reflexivity.
Qed.

Lemma unsupported_rate_is_fatal_witness :
  ~ In 5 [4; 6; 8] /\
  S7Serdes.init "master" 5 = inl AssertionError /\
  In 8 [4; 6; 8] /\
  S7Serdes.init "duplex" 8 = inr (lane _S7SerdesClocking.Neither 8).
Proof.
  assert (H5 : ~ In 5 [4; 6; 8]) by (simpl; lia).
  assert (H8 : In 8 [4; 6; 8]) by (simpl; tauto).
  split; [exact H5|]. split.
  - exact (proj1 (unsupported_rate_is_fatal "master" 5) H5).
  - split; [exact H8|].
    apply (proj2 (unsupported_rate_is_fatal "duplex" 8) H8); discriminate.
Defined.

(** ** The link reset *)

Lemma sync_reset : forall c r i, S7Serdes.reset i = true ->
  S7Serdes.sync c r i = S7Serdes.reset_value.
Proof. intros c r i Hi. unfold S7Serdes.sync, ResetInserter. now rewrite Hi. Qed.

Lemma regs_after_snoc : forall c before i r,
  regs_after (S7Serdes.sync c) r (before ++ [i]) =
  S7Serdes.sync c (regs_after (S7Serdes.sync c) r before) i.
Proof. intros c before i r. now rewrite regs_after_app. Qed.

(** C7, as the claim states it, fails: a link reset does not make the
    lane behave as a fresh instance.  After a cycle of request and a cycle
    of reset every register reads as in a fresh instance, but the capture
    window of the deserializer, which the request has rotated by one bit
    and which the link reset does not reach ([i_RST = ResetSignal("sys")]),
    stands at 1 where that of a fresh instance stands at 0; on the same
    three later cycles the two stay one position apart. *)
Lemma link_reset_leaves_capture_window_rotated :
  map S7Serdes.reset request_then_reset = [false; true] /\
  regs_after (S7Serdes.sync master8) S7Serdes.reset_value request_then_reset =
    S7Serdes.reset_value /\
  ISERDESE2.window_after 8 0 (map bitslip_pin (S7Serdes.run master8 request_then_reset)) = 1 /\
  ISERDESE2.window_after 8 0 (map bitslip_pin (S7Serdes.run master8 [])) = 0 /\
  ISERDESE2.window_after 8 0
    (map bitslip_pin (S7Serdes.run master8 (request_then_reset ++ repeat (cycle false true) 3))) = 4 /\
  ISERDESE2.window_after 8 0
    (map bitslip_pin (S7Serdes.run master8 (repeat (cycle false true) 3))) = 3 /\
  ISERDESE2.window_after 8 0
    (map bitslip_pin (S7Serdes.run master8 (request_then_reset ++ repeat (cycle false true) 3))) <>
  ISERDESE2.window_after 8 0
    (map bitslip_pin (S7Serdes.run master8 (repeat (cycle false true) 3))).
Proof. repeat split; try reflexivity. discriminate. Qed.

Lemma window_after_snoc : forall rate w pins b,
  ISERDESE2.window_after rate w (pins ++ [b]) =
  ISERDESE2.bitslip rate (ISERDESE2.window_after rate w pins) b.
Proof. intros rate w pins b. unfold ISERDESE2.window_after. now rewrite fold_left_app. Qed.

(** C7, amended.  A cycle with the link reset asserted, at any point of
    any run (indeed from any register values), leaves the phase counter at
    0 and every register of the lane at the value it has in a fresh
    instance; the signals the lane drives on any later input sequence are
    those of a fresh instance on that sequence, and resetting again changes
    nothing.  The deserializer's capture window is not restored: on every
    run it stands where the raw requests have rotated it, the reset cycle's
    own request included, as if no reset had been asserted. *)
Theorem link_reset_restores_registers_not_capture_window :
  forall c r i, S7Serdes.reset i = true ->
    phase (S7Serdes.sync c r i) = 0 /\
    S7Serdes.sync c r i = S7Serdes.reset_value /\
    (forall after,
       simulate (S7Serdes.comb c) (S7Serdes.sync c) (S7Serdes.sync c r i) after =
       S7Serdes.run c after) /\
    (forall before after,
       skipn (length before + 1) (S7Serdes.run c (before ++ i :: after)) =
       S7Serdes.run c after) /\
    (forall j, S7Serdes.reset j = true ->
       S7Serdes.sync c (S7Serdes.sync c r i) j = S7Serdes.sync c r i) /\
    (forall before after w,
       ISERDESE2.window_after (_S7SerdesRX.rate (S7Serdes.rx c)) w
         (map bitslip_pin (S7Serdes.run c (before ++ i :: after))) =
       ISERDESE2.window_after (_S7SerdesRX.rate (S7Serdes.rx c)) w
         (map request (before ++ i :: after))) /\
    (forall before w,
       ISERDESE2.window_after (_S7SerdesRX.rate (S7Serdes.rx c)) w
         (map bitslip_pin (S7Serdes.run c (before ++ [i]))) =
       ISERDESE2.bitslip (_S7SerdesRX.rate (S7Serdes.rx c))
         (ISERDESE2.window_after (_S7SerdesRX.rate (S7Serdes.rx c)) w (map request before))
         (request i)).
Proof.
  intros c r i Hi. rewrite (sync_reset c r i Hi).
  split; [reflexivity|]. split; [reflexivity|]. split; [reflexivity|].
  split; [|split; [|split]].
  - intros before after. unfold S7Serdes.run.
    replace (before ++ i :: after) with ((before ++ [i]) ++ after)
      by (rewrite <- app_assoc; reflexivity).
    rewrite simulate_app, skipn_app, simulate_length, length_app. cbn [length].
    rewrite Nat.sub_diag, skipn_all2 by (rewrite simulate_length, length_app; cbn; lia).
    cbn [skipn app]. rewrite regs_after_snoc, (sync_reset c _ i Hi). reflexivity.
  - intros j Hj. apply sync_reset, Hj.
  - intros before after w. unfold S7Serdes.run. now rewrite bitslip_pins_are_requests.
  - intros before w. unfold S7Serdes.run.
    rewrite bitslip_pins_are_requests, map_app. cbn [map]. apply window_after_snoc.
Qed.

Lemma link_reset_restores_registers_not_capture_window_witness :
  S7Serdes.reset (cycle true true) = true /\
  phase (S7Serdes.sync master8
           (regs_after (S7Serdes.sync master8) S7Serdes.reset_value three_requests_then_none)
           (cycle true true)) = 0 /\
  ISERDESE2.window_after 8 0
    (map bitslip_pin (S7Serdes.run master8 (three_requests_then_none ++ [cycle true true]))) = 4.
Proof.
  split; [reflexivity|].
  pose proof (link_reset_restores_registers_not_capture_window master8
                (regs_after (S7Serdes.sync master8) S7Serdes.reset_value three_requests_then_none)
                (cycle true true) eq_refl) as H.
  split; [exact (proj1 H)|].
  etransitivity;
    [exact (proj2 (proj2 (proj2 (proj2 (proj2 (proj2 H))))) three_requests_then_none 0)
    | reflexivity].
Defined.

Lemma refclk_app : forall outs1 outs2, refclk (outs1 ++ outs2) = refclk outs1 ++ refclk outs2.
Proof.
  intros outs1 outs2. unfold refclk, refclk_words, OSERDESE2.OQ.
  now rewrite map_app, concat_app.
Qed.

Lemma refclk_length_master8 : forall ins r,
  length (refclk_from master8 r ins) = (8 * length ins)%nat.
Proof.
  unfold refclk_from, refclk, OSERDESE2.OQ.
  induction ins as [|i ins IH]; intro r; [reflexivity|].
  cbn [simulate refclk_words map concat length]. rewrite length_app.
  fold (refclk_words (simulate (S7Serdes.comb master8) (S7Serdes.sync master8)
                        (S7Serdes.sync master8 r i) ins)).
  rewrite IH. cbn [S7Serdes.comb S7Serdes.clocking_out master8 lane _S7SerdesClocking.comb
                   _S7SerdesClocking.body S7Serdes.clocking _S7SerdesClocking.oserdese2_D].
  unfold OSERDESE2.D_pins, Migen.range. rewrite !length_map, length_seq.
  cbn [_S7SerdesClocking.rate]. change (Z.to_nat 8) with 8%nat. lia.
Qed.

(** C8, as the claim states it, fails: a link reset in the second cycle
    of a master lane at rate 8 makes the generator serialize the first
    word of the super-frame again in the third cycle, so the line no
    longer carries the training pattern, nor what it carries without the
    reset. *)
Lemma link_reset_disturbs_refclk :
  map S7Serdes.reset reset_in_second_cycle = [false; true; false] /\
  refclk (S7Serdes.run master8 reset_in_second_cycle) <> map training_bit (seq 0 24) /\
  refclk (S7Serdes.run master8 reset_in_second_cycle) <>
    refclk (S7Serdes.run master8 (repeat (cycle false false) 3)) /\
  skipn 16 (refclk (S7Serdes.run master8 reset_in_second_cycle)) =
    [false; false; false; false; false; true; true; true] /\
  skipn 16 (refclk (S7Serdes.run master8 (repeat (cycle false false) 3))) =
    [true; true; true; true; false; false; false; false].
Proof.
  split; [reflexivity|]. split; [|split; [|split; reflexivity]];
    intro H; vm_compute in H; discriminate H.
Qed.

(** ** The transmitter *)

Lemma tx_out_simulate : forall c ins r,
  map S7Serdes.tx_out (simulate (S7Serdes.comb c) (S7Serdes.sync c) r ins) =
  map (fun i => _S7SerdesTX.comb (S7Serdes.tx c) (S7Serdes.tx_in i)) ins.
Proof.
  intros c. induction ins as [|i ins IH]; intro r; [reflexivity|].
  cbn [simulate map]. now rewrite IH.
Qed.

(** C9.  On every cycle of every run, whatever the inputs (reset
    included), the ready of the word stream that the transmitter consumes
    from the line-coding datapath ([datapath.source.ready]) is 1, and the
    word presented on that stream during the cycle is, truncated to [rate]
    bits, the word on the serializer's parallel inputs in that same cycle:
    the datapath is never back-pressured and no word is dropped.  (The
    ready of the 32-bit [sink] in front of the datapath is the datapath's
    own [sink.ready].) *)
Theorem tx_never_back_pressures :
  forall c ins,
    Forall (fun o => _S7SerdesTX.datapath_source_ready (S7Serdes.tx_out o) = true)
           (S7Serdes.run c ins) /\
    map (fun o => _S7SerdesTX.oserdese2_D (S7Serdes.tx_out o)) (S7Serdes.run c ins) =
      map (fun i => OSERDESE2.D_pins (_S7SerdesTX.rate (S7Serdes.tx c))
                      (Migen.trunc (_S7SerdesTX.rate (S7Serdes.tx c))
                         (_S7SerdesTX.datapath_source_data (S7Serdes.tx_in i)))) ins /\
    map (fun o => _S7SerdesTX.sink_ready (S7Serdes.tx_out o)) (S7Serdes.run c ins) =
      map (fun i => _S7SerdesTX.datapath_sink_ready (S7Serdes.tx_in i)) ins.
Proof.
  intros c ins. unfold S7Serdes.run.
  pose proof (tx_out_simulate c ins S7Serdes.reset_value) as Htx.
  split; [|split].
  - apply Forall_forall. intros o Ho.
    apply (in_map S7Serdes.tx_out) in Ho. rewrite Htx in Ho.
    apply in_map_iff in Ho. destruct Ho as [i [Hi _]]. rewrite <- Hi. reflexivity.
  - rewrite <- (map_map S7Serdes.tx_out _S7SerdesTX.oserdese2_D), Htx, map_map. reflexivity.
  - rewrite <- (map_map S7Serdes.tx_out _S7SerdesTX.sink_ready), Htx, map_map. reflexivity.
Qed.

(** * Further properties of the code *)

(** ** Bit order of the parallel words *)

Lemma Cat_testbit : forall bs i, Z.testbit (Migen.Cat bs) (Z.of_nat i) = nth i bs false.
Proof.
  induction bs as [|b bs IH]; intros [|i].
  - reflexivity.
  - cbn [Migen.Cat nth]. apply Z.testbit_0_l.
  - cbn [Migen.Cat nth]. rewrite Z.add_comm. apply Z.testbit_0_r.
  - cbn [Migen.Cat nth]. rewrite Nat2Z.inj_succ, Z.add_comm.
    rewrite Z.testbit_succ_r by lia. apply IH.
Qed.

Lemma Cat_bounds : forall bs, 0 <= Migen.Cat bs < 2 ^ Z.of_nat (length bs).
Proof.
  induction bs as [|b bs IH]; cbn [Migen.Cat length].
  - simpl. lia.
  - rewrite Nat2Z.inj_succ, Z.pow_succ_r by lia. destruct b; cbn [Z.b2z]; lia.
Qed.

Lemma range_length : forall n, length (Migen.range n) = Z.to_nat n.
Proof. intro n. unfold Migen.range. now rewrite length_map, length_seq. Qed.

Lemma nth_map_range : forall (f : Z -> bool) n i, (i < Z.to_nat n)%nat ->
  nth i (map f (Migen.range n)) false = f (Z.of_nat i).
Proof.
  intros f n i Hi. unfold Migen.range. rewrite map_map.
  rewrite (nth_indep _ false (f (Z.of_nat 0))) by (rewrite length_map, length_seq; exact Hi).
  rewrite (map_nth (fun k => f (Z.of_nat k)) (seq 0 (Z.to_nat n)) 0%nat i).
  now rewrite seq_nth by exact Hi.
Qed.

Lemma D_pins_length : forall rate word, length (OSERDESE2.D_pins rate word) = Z.to_nat rate.
Proof. intros rate word. unfold OSERDESE2.D_pins. now rewrite length_map, range_length. Qed.

Lemma D_pins_nth : forall rate word i,
  nth i (OSERDESE2.D_pins rate word) false =
  if (i <? Z.to_nat rate)%nat then Z.testbit word (Z.of_nat i) else false.
Proof.
  intros rate word i. destruct (Nat.ltb_spec i (Z.to_nat rate)) as [Hi|Hi].
  - unfold OSERDESE2.D_pins. now rewrite nth_map_range.
  - apply nth_overflow. now rewrite D_pins_length.
Qed.

Lemma trunc_testbit : forall w x i, 0 <= w -> 0 <= i ->
  Z.testbit (Migen.trunc w x) i = if i <? w then Z.testbit x i else false.
Proof.
  intros w x i Hw Hi. unfold Migen.trunc. destruct (Z.ltb_spec i w) as [Hlt|Hge].
  - apply Z.mod_pow2_bits_low. lia.
  - apply Z.mod_pow2_bits_high. lia.
Qed.

Lemma Cat_D_pins : forall rate word, 0 <= rate ->
  Migen.Cat (OSERDESE2.D_pins rate word) = Migen.trunc rate word.
Proof.
  intros rate word Hrate. apply Z.bits_inj'. intros i Hi.
  rewrite <- (Z2Nat.id i Hi), Cat_testbit, D_pins_nth.
  rewrite trunc_testbit by lia.
  destruct (Nat.ltb_spec (Z.to_nat i) (Z.to_nat rate)) as [Hlt|Hge];
    destruct (Z.ltb_spec (Z.of_nat (Z.to_nat i)) rate) as [Hlt'|Hge']; try reflexivity; lia.
Qed.

Lemma data_of_Q_testbit : forall rate Q i, (i < Z.to_nat rate)%nat ->
  Z.testbit (_S7SerdesRX.data_of_Q rate Q) (Z.of_nat i) =
  nth (Z.to_nat rate - i - 1) Q false.
Proof.
  intros rate Q i Hi. unfold _S7SerdesRX.data_of_Q.
  rewrite Cat_testbit, nth_map_range by exact Hi. f_equal. lia.
Qed.

Lemma data_of_Q_testbit_high : forall rate Q i, (Z.to_nat rate <= i)%nat ->
  Z.testbit (_S7SerdesRX.data_of_Q rate Q) (Z.of_nat i) = false.
Proof.
  intros rate Q i Hi. unfold _S7SerdesRX.data_of_Q. rewrite Cat_testbit.
  apply nth_overflow. now rewrite length_map, range_length.
Qed.

Lemma supported_rate_pos : forall rate, In rate [4; 6; 8] -> 0 < rate.
Proof. intros rate [<-|[<-|[<-|[]]]]; lia. Qed.

Lemma data_of_Q_rev : forall rate Q, length Q = Z.to_nat rate ->
  _S7SerdesRX.data_of_Q rate Q = Migen.Cat (rev Q).
Proof.
  intros rate Q Hlen. apply Z.bits_inj'. intros i Hi.
  rewrite <- (Z2Nat.id i Hi), (Cat_testbit (rev Q)).
  destruct (Nat.lt_ge_cases (Z.to_nat i) (Z.to_nat rate)) as [Hlt|Hge].
  - rewrite data_of_Q_testbit by exact Hlt.
    rewrite rev_nth by (rewrite Hlen; exact Hlt). rewrite Hlen. f_equal. lia.
  - rewrite data_of_Q_testbit_high by exact Hge.
    symmetry. apply nth_overflow. now rewrite length_rev, Hlen.
Qed.

(** X1.  Bit order of the received word: when the deserializer presents
    its [rate] outputs, bit [k] of [data] is output [Q<rate-k>] (so [data]
    is the pins concatenated from [Q<rate>] down to [Q1]), the word fits in
    [rate] bits, and it is the word handed to the RX datapath. *)
Theorem rx_data_bit_order :
  forall (c : _S7SerdesRX.t) r i,
    In (_S7SerdesRX.rate c) [4; 6; 8] ->
    length (_S7SerdesRX.iserdese2_Q i) = Z.to_nat (_S7SerdesRX.rate c) ->
    (forall k, (k < Z.to_nat (_S7SerdesRX.rate c))%nat ->
       Migen.bit (_S7SerdesRX.data (_S7SerdesRX.comb c r i)) (Z.of_nat k) =
       nth (Z.to_nat (_S7SerdesRX.rate c) - k - 1) (_S7SerdesRX.iserdese2_Q i) false) /\
    _S7SerdesRX.data (_S7SerdesRX.comb c r i) = Migen.Cat (rev (_S7SerdesRX.iserdese2_Q i)) /\
    0 <= _S7SerdesRX.data (_S7SerdesRX.comb c r i) < 2 ^ _S7SerdesRX.rate c /\
    _S7SerdesRX.datapath_sink_data (_S7SerdesRX.comb c r i) =
      _S7SerdesRX.data (_S7SerdesRX.comb c r i).
Proof.
  intros c r i Hrate Hlen. cbn [_S7SerdesRX.comb _S7SerdesRX.data _S7SerdesRX.datapath_sink_data].
  split; [|split; [|split]].
  - intros k Hk. apply data_of_Q_testbit, Hk.
  - apply data_of_Q_rev, Hlen.
  - rewrite (data_of_Q_rev _ _ Hlen).
    pose proof (Cat_bounds (rev (_S7SerdesRX.iserdese2_Q i))) as Hb.
    rewrite length_rev, Hlen, Z2Nat.id in Hb by (apply supported_rate_pos in Hrate; lia).
    exact Hb.
  - reflexivity.
Qed.

Lemma rx_data_bit_order_witness :
  In (_S7SerdesRX.rate {| _S7SerdesRX.rate := 4 |}) [4; 6; 8] /\
  _S7SerdesRX.data
    (_S7SerdesRX.comb {| _S7SerdesRX.rate := 4 |} _S7SerdesRX.reset_value
       {| _S7SerdesRX.delay_rst := false; _S7SerdesRX.delay_inc := false;
          _S7SerdesRX.shift := false; _S7SerdesRX.source_ready := false;
          _S7SerdesRX.iserdese2_Q := [true; false; false; false];
          _S7SerdesRX.datapath_source_valid := false;
          _S7SerdesRX.datapath_source_data := 0;
          _S7SerdesRX.datapath_idle := false; _S7SerdesRX.datapath_comma := false |}) =
  Migen.Cat [false; false; false; true].
Proof.
  assert (Hrate : In 4 [4; 6; 8]) by (simpl; tauto).
  split; [exact Hrate|].
  exact (proj1 (proj2 (rx_data_bit_order {| _S7SerdesRX.rate := 4 |} _S7SerdesRX.reset_value
    {| _S7SerdesRX.delay_rst := false; _S7SerdesRX.delay_inc := false;
       _S7SerdesRX.shift := false; _S7SerdesRX.source_ready := false;
       _S7SerdesRX.iserdese2_Q := [true; false; false; false];
       _S7SerdesRX.datapath_source_valid := false;
       _S7SerdesRX.datapath_source_data := 0;
       _S7SerdesRX.datapath_idle := false; _S7SerdesRX.datapath_comma := false |}
    Hrate eq_refl))).
Defined.

Lemma tx_words_simulate : forall c ins r,
  tx_words (simulate (S7Serdes.comb c) (S7Serdes.sync c) r ins) =
  map (fun i => OSERDESE2.D_pins (_S7SerdesTX.rate (S7Serdes.tx c))
                  (Migen.trunc (_S7SerdesTX.rate (S7Serdes.tx c))
                     (_S7SerdesTX.datapath_source_data (S7Serdes.tx_in i)))) ins.
Proof.
  intros c. induction ins as [|i ins IH]; intro r; [reflexivity|].
  unfold tx_words in *. cbn [simulate map]. now rewrite IH.
Qed.

Lemma concat_length_const : forall (A : Type) (ls : list (list A)) n,
  Forall (fun l => length l = n) ls -> length (concat ls) = (n * length ls)%nat.
Proof.
  intros A ls n H. induction H as [|l ls Hl _ IH]; cbn [concat length]; [lia|].
  rewrite length_app, IH, Hl. lia.
Qed.

Lemma trunc_trunc : forall w x, 0 <= w -> Migen.trunc w (Migen.trunc w x) = Migen.trunc w x.
Proof. intros w x Hw. unfold Migen.trunc. apply Z.mod_mod. apply Z.pow_nonzero; lia. Qed.

(** X2.  The data serializer receives, on every cycle of every run, the
    [rate] low bits of the word that the TX datapath presents, lowest bit
    on [D1]: the pins read back as that word modulo [2 ^ rate], and a run
    of [n] cycles puts exactly [rate * n] bits on the line. *)
Theorem tx_serializes_low_bits_of_each_word :
  forall c ins, In (_S7SerdesTX.rate (S7Serdes.tx c)) [4; 6; 8] ->
    map Migen.Cat (tx_words (S7Serdes.run c ins)) =
      map (fun i => _S7SerdesTX.datapath_source_data (S7Serdes.tx_in i)
                    mod 2 ^ _S7SerdesTX.rate (S7Serdes.tx c)) ins /\
    length (OSERDESE2.OQ (tx_words (S7Serdes.run c ins))) =
      (Z.to_nat (_S7SerdesTX.rate (S7Serdes.tx c)) * length ins)%nat.
Proof.
  intros c ins Hrate. apply supported_rate_pos in Hrate.
  unfold S7Serdes.run. rewrite tx_words_simulate. split.
  - rewrite map_map. apply map_ext. intro i.
    rewrite Cat_D_pins, trunc_trunc by lia. reflexivity.
  - unfold OSERDESE2.OQ. rewrite (concat_length_const _ _ (Z.to_nat (_S7SerdesTX.rate (S7Serdes.tx c)))).
    + now rewrite length_map.
    + apply Forall_forall. intros l Hl. apply in_map_iff in Hl.
      destruct Hl as [i [<- _]]. apply D_pins_length.
Qed.

Lemma tx_serializes_low_bits_of_each_word_witness :
  In (_S7SerdesTX.rate (S7Serdes.tx slave6)) [4; 6; 8] /\
  map Migen.Cat (tx_words (S7Serdes.run slave6 [cycle_with_word 255; cycle_with_word 5])) =
    [63; 5].
Proof.
  assert (Hrate : In (_S7SerdesTX.rate (S7Serdes.tx slave6)) [4; 6; 8]) by (simpl; tauto).
  split; [exact Hrate|].
  exact (proj1 (tx_serializes_low_bits_of_each_word slave6
                  [cycle_with_word 255; cycle_with_word 5] Hrate)).
Defined.

Lemma data_of_Q_rev_D_pins : forall rate word, 0 <= rate ->
  _S7SerdesRX.data_of_Q rate (rev (OSERDESE2.D_pins rate word)) = Migen.trunc rate word.
Proof.
  intros rate word Hrate.
  rewrite data_of_Q_rev by (rewrite length_rev; apply D_pins_length).
  rewrite rev_involutive. apply Cat_D_pins, Hrate.
Qed.

(** X3.  The pin orders of the two primitives mirror each other: when the
    deserializer's outputs hold the bits of the serializer's inputs in
    reverse pin order ([Q<rate-i>] = [D<i+1>], the bit sent first on the
    highest output), the word [data] of the receiver equals the word
    [data] of the transmitter, for each supported rate. *)
Theorem loopback_word_is_preserved :
  forall (t : _S7SerdesTX.t) (c : _S7SerdesRX.t) ti r ri,
    In (_S7SerdesTX.rate t) [4; 6; 8] ->
    _S7SerdesRX.rate c = _S7SerdesTX.rate t ->
    _S7SerdesRX.iserdese2_Q ri = rev (_S7SerdesTX.oserdese2_D (_S7SerdesTX.comb t ti)) ->
    _S7SerdesRX.data (_S7SerdesRX.comb c r ri) = _S7SerdesTX.data (_S7SerdesTX.comb t ti) /\
    _S7SerdesRX.datapath_sink_data (_S7SerdesRX.comb c r ri) =
      _S7SerdesTX.datapath_source_data ti mod 2 ^ _S7SerdesTX.rate t.
Proof.
  intros t c ti r ri Hrate Hsame HQ. apply supported_rate_pos in Hrate.
  cbn [_S7SerdesRX.comb _S7SerdesRX.data _S7SerdesRX.datapath_sink_data
       _S7SerdesTX.comb _S7SerdesTX.data _S7SerdesTX.oserdese2_D] in *.
  rewrite HQ, Hsame, data_of_Q_rev_D_pins, trunc_trunc by lia.
  split; reflexivity.
Qed.

Lemma loopback_word_is_preserved_witness :
  In (_S7SerdesTX.rate {| _S7SerdesTX.rate := 8 |}) [4; 6; 8] /\
  _S7SerdesRX.data
    (_S7SerdesRX.comb {| _S7SerdesRX.rate := 8 |} _S7SerdesRX.reset_value
       (rx_sample (rev (_S7SerdesTX.oserdese2_D
                          (_S7SerdesTX.comb {| _S7SerdesTX.rate := 8 |} (tx_stimulus 163)))))) =
  163.
Proof.
  assert (Hrate : In 8 [4; 6; 8]) by (simpl; tauto).
  split; [exact Hrate|].
  exact (proj1 (loopback_word_is_preserved {| _S7SerdesTX.rate := 8 |}
                  {| _S7SerdesRX.rate := 8 |} (tx_stimulus 163) _S7SerdesRX.reset_value
                  (rx_sample (rev (_S7SerdesTX.oserdese2_D
                     (_S7SerdesTX.comb {| _S7SerdesTX.rate := 8 |} (tx_stimulus 163)))))
                  Hrate eq_refl eq_refl)).
Defined.

(** ** Construction of a lane *)

Lemma assert_supported : forall rate, In rate [4; 6; 8] ->
  assert (rate_in_4_6_8 rate) = inr tt.
Proof. intros rate H. apply rate_in_4_6_8_spec in H. unfold assert. now rewrite H. Qed.

Lemma init_unclocked : forall mode rate,
  In rate [4; 6; 8] -> mode <> "master"%string ->
  S7Serdes.init mode rate = inr (lane (unclocked_body mode) rate).
Proof.
  intros mode rate Hin Hm. apply rate_in_4_6_8_spec in Hin. apply String.eqb_neq in Hm.
  unfold S7Serdes.init, _S7SerdesClocking.init, _S7SerdesTX.init, _S7SerdesRX.init,
    unclocked_body.
  rewrite Hin. cbn. rewrite Hm. destruct (String.eqb mode "slave"); reflexivity.
Qed.

Lemma init_master : forall rate c,
  S7Serdes.init "master" rate = inr c -> (rate = 4 \/ rate = 8) /\ c = master rate.
Proof.
  intros rate c H. destruct (rate_in_4_6_8 rate) eqn:E.
  - apply rate_in_4_6_8_spec in E. destruct E as [<-|[<-|[<-|[]]]];
      cbv in H; try discriminate H; injection H as <-; split; auto.
  - unfold S7Serdes.init, _S7SerdesClocking.init in H. rewrite E in H. discriminate H.
Qed.

(** X4.  Whatever a constructor call returns, a lane exists only for a
    rate in {4, 6, 8}; its three submodules are built for that same rate,
    and it has a clock generator exactly when the mode is master and a
    clock input buffer exactly when the mode is slave.  For a mode other
    than master, construction succeeds for every supported rate. *)
Theorem constructed_lane_is_consistent :
  forall mode rate,
    (forall c, S7Serdes.init mode rate = inr c ->
       In rate [4; 6; 8] /\
       _S7SerdesClocking.rate (S7Serdes.clocking c) = rate /\
       _S7SerdesTX.rate (S7Serdes.tx c) = rate /\
       _S7SerdesRX.rate (S7Serdes.rx c) = rate /\
       ((exists k, _S7SerdesClocking.body (S7Serdes.clocking c) = _S7SerdesClocking.Master k)
          <-> mode = "master"%string) /\
       (_S7SerdesClocking.body (S7Serdes.clocking c) = _S7SerdesClocking.Slave
          <-> mode = "slave"%string)) /\
    (mode <> "master"%string -> In rate [4; 6; 8] ->
       exists c, S7Serdes.init mode rate = inr c).
Proof.
  intros mode rate. split.
  - intros c H. destruct (rate_in_4_6_8 rate) eqn:E.
    2:{ unfold S7Serdes.init, _S7SerdesClocking.init in H. rewrite E in H. discriminate H. }
    apply rate_in_4_6_8_spec in E. split; [exact E|].
    destruct (String.eqb_spec mode "master") as [->|Hm].
    + apply init_master in H. destruct H as [_ ->]. cbn.
      repeat split; try reflexivity; try discriminate; eauto.
    + rewrite (init_unclocked mode rate E Hm) in H. injection H as <-. cbn.
      repeat split; try reflexivity.
      * intros [k Hk]. unfold unclocked_body in Hk.
        destruct (String.eqb mode "slave"); discriminate Hk.
      * intro Hc. contradiction.
      * unfold unclocked_body. destruct (String.eqb_spec mode "slave"); [auto | discriminate].
      * intros ->. reflexivity.
  - intros Hm Hin. eexists. apply init_unclocked; assumption.
Qed.

Lemma constructed_lane_is_consistent_witness :
  S7Serdes.init "slave" 6 = inr slave6 /\
  _S7SerdesRX.rate (S7Serdes.rx slave6) = 6.
Proof.
  split; [reflexivity|].
  exact (proj1 (proj2 (proj2 (proj2
    (proj1 (constructed_lane_is_consistent "slave" 6) slave6 eq_refl))))).
Defined.

(** X5.  In master mode construction succeeds exactly for the rates 4 and
    8.  Rate 6 passes the assertion on the rate, but 40 is not a multiple
    of 6 and the construction of [stream.Converter(40, 6)] raises; any
    other rate fails the assertion. *)
Theorem master_constructs_for_rates_4_and_8 :
  forall rate,
    ((exists c, S7Serdes.init "master" rate = inr c) <-> rate = 4 \/ rate = 8) /\
    (rate = 6 -> S7Serdes.init "master" rate = inl ValueError) /\
    (~ In rate [4; 6; 8] -> S7Serdes.init "master" rate = inl AssertionError).
Proof.
  intro rate. split; [split|split].
  - intros [c H]. apply (init_master rate c H).
  - intros [->| ->]; eexists; reflexivity.
  - intros ->. reflexivity.
  - intro Hn. unfold S7Serdes.init, _S7SerdesClocking.init.
    rewrite (rate_not_in_4_6_8 rate Hn). reflexivity.
Qed.

Lemma master_constructs_for_rates_4_and_8_witness :
  6 = 6 /\ S7Serdes.init "master" 6 = inl ValueError.
Proof.
  split; [reflexivity|].
  exact (proj1 (proj2 (master_constructs_for_rates_4_and_8 6)) eq_refl).
Defined.

(** ** The clock generator at every rate *)

Lemma chunk_sync_master : forall rate r i,
  chunk (S7Serdes.sync (master rate) r i) =
  if S7Serdes.reset i then 0
  else if chunk r =? 40 / rate - 1 then 0 else chunk r + 1.
Proof.
  intros rate r i. unfold S7Serdes.sync, ResetInserter, chunk.
  destruct (S7Serdes.reset i); [reflexivity|]. cbn. unfold Converter.last. cbn.
  destruct (Converter.mux (S7Serdes.clocking_regs r) =? 40 / rate - 1); reflexivity.
Qed.

Lemma chunk_bounds_sync_master : forall rate r i, 0 < 40 / rate ->
  0 <= chunk r < 40 / rate -> 0 <= chunk (S7Serdes.sync (master rate) r i) < 40 / rate.
Proof.
  intros rate r i Hratio Hr. rewrite chunk_sync_master.
  destruct (S7Serdes.reset i); [lia|].
  destruct (Z.eqb_spec (chunk r) (40 / rate - 1)); lia.
Qed.

Lemma refclk_word_master : forall rate r i, rate = 4 \/ rate = 8 ->
  0 <= chunk r < 40 / rate ->
  refclk_words [S7Serdes.comb (master rate) r i] =
  [map (fun t => training_bit (Z.to_nat (rate * chunk r) + t)) (seq 0 (Z.to_nat rate))].
Proof.
  intros rate [[m] rxr] i [-> | ->] Hr; unfold chunk in *; cbn in Hr.
  - change (40 / 4) with 10 in Hr.
    assert (Hm : m = 0 \/ m = 1 \/ m = 2 \/ m = 3 \/ m = 4 \/
                 m = 5 \/ m = 6 \/ m = 7 \/ m = 8 \/ m = 9) by lia.
    repeat (destruct Hm as [-> | Hm]; [reflexivity|]). subst m. reflexivity.
  - change (40 / 8) with 5 in Hr.
    assert (Hm : m = 0 \/ m = 1 \/ m = 2 \/ m = 3 \/ m = 4) by lia.
    repeat (destruct Hm as [-> | Hm]; [reflexivity|]). subst m. reflexivity.
Qed.

Lemma refclk_from_master : forall rate, rate = 4 \/ rate = 8 ->
  forall ins r, 0 <= chunk r < 40 / rate -> Forall no_reset ins ->
  refclk_from (master rate) r ins =
  map (fun t => training_bit (Z.to_nat (rate * chunk r) + t))
      (seq 0 (Z.to_nat rate * length ins)).
Proof.
  intros rate Hrate.
  assert (Hratio : 0 < 40 / rate) by (destruct Hrate as [-> | ->]; reflexivity).
  induction ins as [|i ins IH]; intros r Hr Hnr.
  - rewrite Nat.mul_0_r. reflexivity.
  - inversion Hnr as [|? ? Hi Hins]; subst. unfold refclk_from in *. cbn [simulate].
    change (S7Serdes.comb (master rate) r i ::
            simulate (S7Serdes.comb (master rate)) (S7Serdes.sync (master rate))
              (S7Serdes.sync (master rate) r i) ins)
      with ([S7Serdes.comb (master rate) r i] ++
            simulate (S7Serdes.comb (master rate)) (S7Serdes.sync (master rate))
              (S7Serdes.sync (master rate) r i) ins).
    rewrite refclk_app, (IH _ (chunk_bounds_sync_master rate r i Hratio Hr) Hins).
    unfold refclk at 1. rewrite (refclk_word_master rate r i Hrate Hr).
    unfold OSERDESE2.OQ. cbn [concat]. rewrite app_nil_r.
    replace (Z.to_nat rate * length (i :: ins))%nat
      with (Z.to_nat rate + Z.to_nat rate * length ins)%nat by (cbn [length]; lia).
    rewrite seq_app, map_app. f_equal.
    rewrite (seq_add_start (0 + Z.to_nat rate)), map_map. apply map_ext. intro t.
    rewrite chunk_sync_master. unfold no_reset in Hi. rewrite Hi.
    destruct (Z.eqb_spec (chunk r) (40 / rate - 1)) as [Hlast|Hmid].
    + rewrite Hlast.
      destruct Hrate as [-> | ->]; symmetry; exact (training_bit_period t).
    + f_equal. destruct Hrate as [-> | ->]; lia.
Qed.

(** X6.  Every master lane that can be constructed, at rate 4 as at rate
    8, serializes the training pattern while the link reset stays low:
    over [n] cycles the reference clock line carries [rate * n] bits and
    line bit [t] is bit [t mod 10] of 1111100000, lowest bit first. *)
Theorem every_master_refclk_is_the_training_pattern :
  forall rate c, S7Serdes.init "master" rate = inr c ->
  forall ins, Forall no_reset ins ->
    refclk (S7Serdes.run c ins) = map training_bit (seq 0 (Z.to_nat rate * length ins)).
Proof.
  intros rate c Hc ins Hnr. apply init_master in Hc. destruct Hc as [Hrate ->].
  assert (Hr : 0 <= chunk S7Serdes.reset_value < 40 / rate)
    by (change (chunk S7Serdes.reset_value) with 0; destruct Hrate as [-> | ->]; cbn; lia).
  pose proof (refclk_from_master rate Hrate ins S7Serdes.reset_value Hr Hnr) as H.
  change (chunk S7Serdes.reset_value) with 0 in H. rewrite Z.mul_0_r in H. exact H.
Qed.

Lemma every_master_refclk_is_the_training_pattern_witness :
  S7Serdes.init "master" 4 = inr (master 4) /\
  Forall no_reset (repeat (cycle false false) 3) /\
  refclk (S7Serdes.run (master 4) (repeat (cycle false false) 3)) =
    [false; false; false; false; false; true; true; true; true; true; false; false].
Proof.
  assert (Hnr : Forall no_reset (repeat (cycle false false) 3)) by (repeat constructor).
  split; [reflexivity|]. split; [exact Hnr|].
  exact (every_master_refclk_is_the_training_pattern 4 (master 4) eq_refl _ Hnr).
Defined.

(** X7.  A lane constructed for any mode other than master never drives
    the reference clock: on no cycle of any run does a converter or clock
    serializer signal exist, nothing is put on the clock line, and the
    clocking registers stay at their reset value. *)
Theorem only_master_generates_refclk :
  forall mode rate c, mode <> "master"%string -> S7Serdes.init mode rate = inr c ->
  forall ins,
    Forall (fun o => S7Serdes.clocking_out o = None) (S7Serdes.run c ins) /\
    refclk (S7Serdes.run c ins) = [] /\
    S7Serdes.clocking_regs (regs_after (S7Serdes.sync c) S7Serdes.reset_value ins) =
      _S7SerdesClocking.reset_value.
Proof.
  intros mode rate c Hm Hc ins.
  assert (Hin : In rate [4; 6; 8]).
  { destruct (rate_in_4_6_8 rate) eqn:E; [apply rate_in_4_6_8_spec, E|].
    unfold S7Serdes.init, _S7SerdesClocking.init in Hc. rewrite E in Hc. discriminate Hc. }
  rewrite (init_unclocked mode rate Hin Hm) in Hc. injection Hc as <-.
  unfold S7Serdes.run.
  assert (Hstep : forall r i,
            S7Serdes.clocking_regs r = _S7SerdesClocking.reset_value ->
            S7Serdes.clocking_regs (S7Serdes.sync (lane (unclocked_body mode) rate) r i) =
            _S7SerdesClocking.reset_value).
  { intros r i Hr. unfold S7Serdes.sync, ResetInserter.
    destruct (S7Serdes.reset i); [reflexivity|]. cbn.
    unfold _S7SerdesClocking.sync, unclocked_body. cbn.
    destruct (String.eqb mode "slave"); exact Hr. }
  assert (Hnone : forall r i,
            S7Serdes.clocking_out (S7Serdes.comb (lane (unclocked_body mode) rate) r i) = None).
  { intros r i. cbn. unfold _S7SerdesClocking.comb, unclocked_body. cbn.
    destruct (String.eqb mode "slave"); reflexivity. }
  assert (Hreset : S7Serdes.clocking_regs S7Serdes.reset_value = _S7SerdesClocking.reset_value)
    by reflexivity.
  revert Hreset. generalize S7Serdes.reset_value.
  induction ins as [|i ins IH]; intros r Hr.
  - repeat split; [constructor | exact Hr].
  - destruct (IH _ (Hstep r i Hr)) as [Hall [Hclk Hregs]].
    cbn [simulate regs_after]. split; [|split].
    + constructor; [apply Hnone | exact Hall].
    + unfold refclk, refclk_words, OSERDESE2.OQ in *. cbn [map concat].
      rewrite Hnone. exact Hclk.
    + exact Hregs.
Qed.

Lemma only_master_generates_refclk_witness :
  "slave"%string <> "master"%string /\
  S7Serdes.init "slave" 6 = inr slave6 /\
  refclk (S7Serdes.run slave6 (repeat (cycle false true) 4)) = [].
Proof.
  assert (Hm : "slave"%string <> "master"%string) by discriminate.
  split; [exact Hm|]. split; [reflexivity|].
  exact (proj1 (proj2 (only_master_generates_refclk "slave" 6 slave6 Hm eq_refl
                         (repeat (cycle false true) 4)))).
Defined.

(** ** Counting requests *)

Lemma requested_cons : forall i ins,
  requested (i :: ins) = ((if request i then 1 else 0) + requested ins)%nat.
Proof. intros i ins. unfold requested. cbn [map]. apply pulses_cons. Qed.

Lemma phase_counts_requests : forall c ins r, phase_in_range r -> Forall no_reset ins ->
  phase (regs_after (S7Serdes.sync c) r ins) = (phase r + Z.of_nat (requested ins)) mod 8 /\
  Z.of_nat (pulses (effective_slips c r ins)) = (phase r + Z.of_nat (requested ins)) / 8.
Proof.
  intros c. induction ins as [|i ins IH]; intros r Hr Hnr.
  - unfold phase_in_range in Hr. cbn. rewrite Z.add_0_r, Z.mod_small, Z.div_small by lia.
    split; reflexivity.
  - inversion Hnr as [|? ? Hi Hins]; subst. unfold no_reset in Hi.
    destruct (IH _ (phase_in_range_sync c r i Hr) Hins) as [IHp IHs].
    rewrite phase_sync, Hi in IHp, IHs.
    unfold effective_slips in *. cbn [regs_after simulate map].
    rewrite pulses_cons, effective_slip_comb, requested_cons.
    unfold phase_in_range in Hr.
    destruct (request i); cbn [andb].
    + rewrite succ_mod_8 in IHp, IHs by exact Hr.
      destruct (Z.eqb_spec (phase r) 7) as [H7|H7].
      * rewrite H7 in *. rewrite IHp.
        replace (7 + Z.of_nat (1 + requested ins)) with (0 + Z.of_nat (requested ins) + 1 * 8) by lia.
        rewrite Z_mod_plus_full, Z.div_add by lia. split; [reflexivity | lia].
      * rewrite IHp.
        replace (phase r + Z.of_nat (1 + requested ins))
          with (phase r + 1 + Z.of_nat (requested ins)) by lia.
        split; [reflexivity | lia].
    + rewrite IHp. cbn [Nat.add]. split; [reflexivity | lia].
Qed.

(** X9.  The phase counter counts requested cycles, not consecutive ones:
    in any run of a fresh lane with the link reset low, after the run the
    counter reads the number of cycles on which the request was high,
    modulo 8, and the number of shifts forwarded to the RX datapath is that
    number divided by 8, however the requests are spaced. *)
Theorem every_eighth_request_is_forwarded :
  forall c ins, Forall no_reset ins ->
    phase (regs_after (S7Serdes.sync c) S7Serdes.reset_value ins) =
      Z.of_nat (requested ins) mod 8 /\
    Z.of_nat (pulses (map effective_slip (S7Serdes.run c ins))) =
      Z.of_nat (requested ins) / 8.
Proof.
  intros c ins Hnr.
  exact (phase_counts_requests c ins S7Serdes.reset_value phase_in_range_reset Hnr).
Qed.

Lemma every_eighth_request_is_forwarded_witness :
  Forall no_reset spaced_requests /\
  requested spaced_requests = 8%nat /\
  Z.of_nat (pulses (map effective_slip (S7Serdes.run slave6 spaced_requests))) = 1 /\
  phase (regs_after (S7Serdes.sync slave6) S7Serdes.reset_value spaced_requests) = 0.
Proof.
  assert (Hnr : Forall no_reset spaced_requests) by (repeat constructor).
  split; [exact Hnr|]. split; [reflexivity|].
  destruct (every_eighth_request_is_forwarded slave6 spaced_requests Hnr) as [Hp Hs].
  split; [exact Hs | exact Hp].
Defined.

(** X12.  Under a request held from a fresh lane, reset low, for any
    number of cycles, the shift is forwarded to the RX datapath exactly on
    the cycles of index 7, 15, 23, ...: those whose index is 7 modulo 8. *)
Theorem held_request_forwards_every_eighth_cycle :
  forall c ins, Forall held ins ->
    map effective_slip (S7Serdes.run c ins) =
    map (fun k => Z.of_nat k mod 8 =? 7) (seq 0 (length ins)).
Proof.
  intros c ins Hheld.
  pose proof (effective_slips_held c ins _ phase_in_range_reset Hheld) as Hs.
  rewrite (phases_held c ins _ phase_in_range_reset Hheld), map_map in Hs.
  exact Hs.
Qed.

Lemma held_request_forwards_every_eighth_cycle_witness :
  Forall held (repeat (cycle false true) 17) /\
  pulses (map effective_slip (S7Serdes.run master8 (repeat (cycle false true) 17))) = 2%nat.
Proof.
  assert (Hheld : Forall held (repeat (cycle false true) 17)) by (repeat constructor).
  split; [exact Hheld|].
  rewrite (held_request_forwards_every_eighth_cycle master8 _ Hheld). reflexivity.
Defined.

(** ** After a reset *)

Lemma pulses_zero : forall l, pulses l = 0%nat -> Forall (fun b => b = false) l.
Proof.
  induction l as [|b l IH]; intro H; constructor.
  - destruct b; [rewrite pulses_cons in H; discriminate H | reflexivity].
  - apply IH. rewrite pulses_cons in H. destruct b; [discriminate H | exact H].
Qed.

Lemma no_slip_in_seven_cycles : forall c ins r, phase r = 0 ->
  Forall (fun b => b = false) (firstn 7 (effective_slips c r ins)).
Proof.
  intros c ins r Hr. apply pulses_zero.
  unfold effective_slips. rewrite firstn_map, simulate_firstn.
  assert (Hrange : phase_in_range r) by (unfold phase_in_range; lia).
  pose proof (effective_slips_budget c (firstn 7 ins) r Hrange) as Hb.
  pose proof (firstn_le_length 7 ins) as Hlen.
  unfold effective_slips in Hb. lia.
Qed.

Lemma run_after_reset : forall c before i after, S7Serdes.reset i = true ->
  skipn (length before + 1) (S7Serdes.run c (before ++ i :: after)) = S7Serdes.run c after.
Proof.
  intros c before i after Hi. unfold S7Serdes.run.
  replace (before ++ i :: after) with ((before ++ [i]) ++ after)
    by (rewrite <- app_assoc; reflexivity).
  rewrite simulate_app, skipn_app, simulate_length, length_app. cbn [length].
  rewrite Nat.sub_diag, skipn_all2 by (rewrite simulate_length, length_app; cbn; lia).
  cbn [skipn app]. now rewrite regs_after_snoc, (sync_reset c _ i Hi).
Qed.

(** X10.  No shift is forwarded to the RX datapath during the first seven
    cycles of a fresh lane, nor during the seven cycles that follow a
    cycle with the link reset asserted, whatever the requests: the reset
    discards the requests counted before it. *)
Theorem no_shift_within_seven_cycles_of_reset :
  forall c before i after,
    Forall (fun b => b = false) (firstn 7 (map effective_slip (S7Serdes.run c after))) /\
    (S7Serdes.reset i = true ->
     Forall (fun b => b = false)
       (firstn 7 (skipn (length before + 1)
                    (map effective_slip (S7Serdes.run c (before ++ i :: after)))))).
Proof.
  intros c before i after.
  assert (Hfresh : Forall (fun b => b = false)
                     (firstn 7 (map effective_slip (S7Serdes.run c after))))
    by (apply (no_slip_in_seven_cycles c after S7Serdes.reset_value); reflexivity).
  split; [exact Hfresh|].
  intro Hi. rewrite skipn_map, (run_after_reset c before i after Hi). exact Hfresh.
Qed.

Lemma no_shift_within_seven_cycles_of_reset_witness :
  S7Serdes.reset (cycle true true) = true /\
  Forall (fun b => b = false)
    (firstn 7 (skipn (length (repeat (cycle false true) 5) + 1)
                 (map effective_slip
                    (S7Serdes.run master8
                       (repeat (cycle false true) 5 ++ cycle true true :: repeat (cycle false true) 7))))).
Proof.
  split; [reflexivity|].
  exact (proj2 (no_shift_within_seven_cycles_of_reset master8 (repeat (cycle false true) 5)
                  (cycle true true) (repeat (cycle false true) 7)) eq_refl).
Defined.

(** ** Register invariants *)

Lemma chunk_bounds_after_master : forall rate ins r, 0 < 40 / rate ->
  0 <= chunk r < 40 / rate ->
  0 <= chunk (regs_after (S7Serdes.sync (master rate)) r ins) < 40 / rate.
Proof.
  intros rate. induction ins as [|i ins IH]; intros r Hratio Hr; [exact Hr|].
  cbn [regs_after]. apply IH; [exact Hratio|]. apply chunk_bounds_sync_master; assumption.
Qed.

Lemma chunk_after_unclocked : forall mode rate ins r, chunk r = 0 ->
  chunk (regs_after (S7Serdes.sync (lane (unclocked_body mode) rate)) r ins) = 0.
Proof.
  intros mode rate. induction ins as [|i ins IH]; intros r Hr; [exact Hr|].
  cbn [regs_after]. apply IH. unfold chunk, S7Serdes.sync, ResetInserter.
  destruct (S7Serdes.reset i); [reflexivity|]. cbn.
  unfold _S7SerdesClocking.sync, unclocked_body. cbn.
  destruct (String.eqb mode "slave"); exact Hr.
Qed.

(** X11.  In every lane that construction returns, after any run
    (requests and resets at will) the phase counter is within 0..7 and the
    converter's chunk index selects a slice inside the 40-bit super-frame:
    it is not negative and [(index + 1) * rate] does not exceed 40. *)
Theorem registers_stay_in_range :
  forall mode rate c, S7Serdes.init mode rate = inr c ->
  forall ins,
    0 <= phase (regs_after (S7Serdes.sync c) S7Serdes.reset_value ins) <= 7 /\
    0 <= chunk (regs_after (S7Serdes.sync c) S7Serdes.reset_value ins) /\
    (chunk (regs_after (S7Serdes.sync c) S7Serdes.reset_value ins) + 1) * rate <= 40.
Proof.
  intros mode rate c Hc ins.
  split; [apply (phase_in_range_after c ins), phase_in_range_reset|].
  destruct (String.eqb_spec mode "master") as [->|Hm].
  - apply init_master in Hc. destruct Hc as [Hrate ->].
    assert (Hratio : 0 < 40 / rate) by (destruct Hrate as [-> | ->]; reflexivity).
    assert (H0 : 0 <= chunk S7Serdes.reset_value < 40 / rate)
      by (change (chunk S7Serdes.reset_value) with 0; lia).
    pose proof (chunk_bounds_after_master rate ins _ Hratio H0) as Hb.
    destruct Hrate as [-> | ->].
    + change (40 / 4) with 10 in Hb. lia.
    + change (40 / 8) with 5 in Hb. lia.
  - assert (Hin : In rate [4; 6; 8]).
    { destruct (rate_in_4_6_8 rate) eqn:E; [apply rate_in_4_6_8_spec, E|].
      unfold S7Serdes.init, _S7SerdesClocking.init in Hc. rewrite E in Hc. discriminate Hc. }
    rewrite (init_unclocked mode rate Hin Hm) in Hc. injection Hc as <-.
    rewrite (chunk_after_unclocked mode rate ins S7Serdes.reset_value eq_refl).
    destruct Hin as [<-|[<-|[<-|[]]]]; lia.
Qed.

Lemma registers_stay_in_range_witness :
  S7Serdes.init "master" 4 = inr (master 4) /\
  (chunk (regs_after (S7Serdes.sync (master 4)) S7Serdes.reset_value
            (repeat (cycle false true) 9)) + 1) * 4 <= 40.
Proof.
  split; [reflexivity|].
  exact (proj2 (proj2 (registers_stay_in_range "master" 4 (master 4) eq_refl
                         (repeat (cycle false true) 9)))).
Defined.

(** ** The reference clock through a link reset *)

Lemma refclk_length_master : forall rate ins r,
  length (refclk_from (master rate) r ins) = (Z.to_nat rate * length ins)%nat.
Proof.
  intro rate. unfold refclk_from, refclk, OSERDESE2.OQ.
  induction ins as [|i ins IH]; intro r; [now rewrite Nat.mul_0_r|].
  cbn [simulate refclk_words map concat length]. rewrite length_app.
  fold (refclk_words (simulate (S7Serdes.comb (master rate)) (S7Serdes.sync (master rate))
                        (S7Serdes.sync (master rate) r i) ins)).
  rewrite IH.
  cbn [S7Serdes.comb S7Serdes.clocking_out master lane _S7SerdesClocking.comb
       _S7SerdesClocking.body S7Serdes.clocking _S7SerdesClocking.oserdese2_D
       _S7SerdesClocking.rate].
  rewrite D_pins_length. lia.
Qed.

(** The word serialized during a cycle is decided by the registers alone. *)
Lemma refclk_from_last_input : forall c r before i j,
  refclk_from c r (before ++ [i]) = refclk_from c r (before ++ [j]).
Proof.
  intros c r before i j. unfold refclk_from. rewrite !simulate_app, !refclk_app.
  reflexivity.
Qed.

Lemma nth_map_seq : forall (f : nat -> bool) n j, (j < n)%nat ->
  nth j (map f (seq 0 n)) false = f j.
Proof.
  intros f n j Hj.
  rewrite (nth_indep _ false (f 0%nat)) by (rewrite length_map, length_seq; exact Hj).
  rewrite (map_nth f (seq 0 n) 0%nat j). now rewrite seq_nth by exact Hj.
Qed.

Lemma square_wave_whole_patterns : forall a j,
  Z.of_nat a mod 10 = 0 -> square_wave (a + j) = square_wave j.
Proof.
  intros a j Ha. unfold square_wave. f_equal.
  rewrite Nat2Z.inj_add, <- Zplus_mod_idemp_l, Ha. reflexivity.
Qed.

(** A stream restarted after [a] bits continues the pattern exactly when
    [a] bits are a whole number of patterns, or nothing follows. *)
Lemma restarted_square_wave : forall a b, Z.of_nat a mod 2 = 0 -> (b = 0 \/ 4 <= b)%nat ->
  (map square_wave (seq 0 a) ++ map square_wave (seq 0 b) = map square_wave (seq 0 (a + b))
   <-> Z.of_nat a mod 10 = 0 \/ b = 0%nat).
Proof.
  intros a b Heven Hb. rewrite seq_app, map_app. split.
  - intro H. apply app_inv_head in H. destruct Hb as [Hb|Hb]; [right; exact Hb | left].
    cbn [Nat.add] in H.
    assert (H0 : square_wave 0 = square_wave (a + 0)).
    { rewrite <- (nth_map_seq square_wave b 0) by lia. rewrite H.
      rewrite (seq_add_start a), map_map. apply (nth_map_seq (fun k => square_wave (a + k))). lia. }
    assert (H3 : square_wave 3 = square_wave (a + 3)).
    { rewrite <- (nth_map_seq square_wave b 3) by lia. rewrite H.
      rewrite (seq_add_start a), map_map. apply (nth_map_seq (fun k => square_wave (a + k))). lia. }
    unfold square_wave in H0, H3. rewrite Nat.add_0_r in H0.
    change (5 <=? Z.of_nat 0 mod 10) with false in H0.
    change (5 <=? Z.of_nat 3 mod 10) with false in H3.
    symmetry in H0, H3. apply Z.leb_gt in H0, H3.
    rewrite Nat2Z.inj_add, <- Zplus_mod_idemp_l in H3. change (Z.of_nat 3) with 3 in H3.
    pose proof (Z.mod_pos_bound (Z.of_nat a) 10 ltac:(lia)) as Hu.
    pose proof (Z.div_mod (Z.of_nat a) 10 ltac:(lia)) as Hd.
    pose proof (Z.div_mod (Z.of_nat a) 2 ltac:(lia)) as Hd2.
    assert (Hcase : Z.of_nat a mod 10 = 0 \/ Z.of_nat a mod 10 = 1 \/ Z.of_nat a mod 10 = 2 \/
                    Z.of_nat a mod 10 = 3 \/ Z.of_nat a mod 10 = 4) by lia.
    destruct Hcase as [E|[E|[E|[E|E]]]]; rewrite E in *; cbn in H3; lia.
  - intros [Ha | ->]; [|reflexivity]. f_equal. cbn [Nat.add].
    rewrite (seq_add_start a), map_map. apply map_ext. intro j.
    symmetry. apply square_wave_whole_patterns, Ha.
Qed.

Lemma refclk_through_reset : forall rate, rate = 4 \/ rate = 8 ->
  forall before i after,
    Forall no_reset before -> S7Serdes.reset i = true -> Forall no_reset after ->
    refclk (S7Serdes.run (master rate) (before ++ i :: after)) =
    map square_wave (seq 0 (Z.to_nat rate * (length before + 1))) ++
    map square_wave (seq 0 (Z.to_nat rate * length after)).
Proof.
  intros rate Hrate before i after Hb Hi Ha.
  assert (H0 : 0 <= chunk S7Serdes.reset_value < 40 / rate)
    by (change (chunk S7Serdes.reset_value) with 0; destruct Hrate as [-> | ->]; cbn; lia).
  assert (Hfresh : forall ins, Forall no_reset ins ->
            refclk_from (master rate) S7Serdes.reset_value ins =
            map square_wave (seq 0 (Z.to_nat rate * length ins))).
  { intros ins Hins.
    rewrite (refclk_from_master rate Hrate ins S7Serdes.reset_value H0 Hins).
    change (chunk S7Serdes.reset_value) with 0. rewrite Z.mul_0_r.
    apply map_ext. intro t. apply training_bit_square_wave. }
  unfold S7Serdes.run.
  replace (before ++ i :: after) with ((before ++ [i]) ++ after)
    by (rewrite <- app_assoc; reflexivity).
  rewrite simulate_app, refclk_app. f_equal.
  - fold (refclk_from (master rate) S7Serdes.reset_value (before ++ [i])).
    rewrite (refclk_from_last_input _ _ before i (cycle false false)).
    rewrite Hfresh by (apply Forall_app; split; [exact Hb | repeat constructor]).
    now rewrite length_app.
  - rewrite regs_after_snoc, (sync_reset (master rate) _ i Hi). apply Hfresh, Ha.
Qed.

(** C8, amended.  In master mode, at either rate at which a master lane is
    constructed, a cycle with the link reset asserted returns the chunk
    index of the clock generator's converter to 0, so from the next cycle,
    while the reset stays low, the line carries the training pattern from
    its first bit, as in a fresh instance, wherever the super-frame had got
    to.  The line thus carries the uninterrupted pattern through a reset
    exactly when the bits sent up to and including the reset cycle are a
    whole number of 10-bit patterns, or when no cycle follows the reset;
    in every other case the pattern on the line is broken. *)
Theorem link_reset_restarts_master_refclk :
  forall rate c, S7Serdes.init "master" rate = inr c ->
  forall before i after, S7Serdes.reset i = true -> Forall no_reset after ->
    chunk (regs_after (S7Serdes.sync c) S7Serdes.reset_value (before ++ [i])) = 0 /\
    skipn (Z.to_nat rate * (length before + 1))
          (refclk (S7Serdes.run c (before ++ i :: after))) =
      map square_wave (seq 0 (Z.to_nat rate * length after)) /\
    skipn (Z.to_nat rate * (length before + 1))
          (refclk (S7Serdes.run c (before ++ i :: after))) =
      refclk (S7Serdes.run c after) /\
    (Forall no_reset before ->
       (refclk (S7Serdes.run c (before ++ i :: after)) =
          map square_wave (seq 0 (Z.to_nat rate * (length before + 1 + length after)))
        <-> (rate * (Z.of_nat (length before) + 1)) mod 10 = 0 \/ after = [])).
Proof.
  intros rate c Hc before i after Hi Ha.
  apply init_master in Hc. destruct Hc as [Hrate ->].
  assert (H0 : 0 <= chunk S7Serdes.reset_value < 40 / rate)
    by (change (chunk S7Serdes.reset_value) with 0; destruct Hrate as [-> | ->]; cbn; lia).
  assert (Hfresh : refclk (S7Serdes.run (master rate) after) =
                   map square_wave (seq 0 (Z.to_nat rate * length after))).
  { pose proof (refclk_from_master rate Hrate after S7Serdes.reset_value H0 Ha) as H.
    change (chunk S7Serdes.reset_value) with 0 in H. rewrite Z.mul_0_r in H.
    unfold refclk_from in H. unfold S7Serdes.run. rewrite H.
    apply map_ext. intro t. apply training_bit_square_wave. }
  assert (Hskip : skipn (Z.to_nat rate * (length before + 1))
                    (refclk (S7Serdes.run (master rate) (before ++ i :: after))) =
                  refclk (S7Serdes.run (master rate) after)).
  { unfold S7Serdes.run.
    replace (before ++ i :: after) with ((before ++ [i]) ++ after)
      by (rewrite <- app_assoc; reflexivity).
    rewrite simulate_app, refclk_app, skipn_app.
    pose proof (refclk_length_master rate (before ++ [i]) S7Serdes.reset_value) as Hlen.
    unfold refclk_from in Hlen. rewrite length_app in Hlen. cbn [length] in Hlen.
    rewrite Hlen, Nat.sub_diag, skipn_all2 by lia. cbn [skipn app].
    rewrite regs_after_snoc, (sync_reset (master rate) _ i Hi). reflexivity. }
  split; [now rewrite regs_after_snoc, (sync_reset (master rate) _ i Hi)|].
  split; [rewrite Hskip; exact Hfresh|]. split; [exact Hskip|].
  intro Hb. rewrite (refclk_through_reset rate Hrate before i after Hb Hi Ha).
  replace (Z.to_nat rate * (length before + 1 + length after))%nat
    with (Z.to_nat rate * (length before + 1) + Z.to_nat rate * length after)%nat by lia.
  rewrite restarted_square_wave.
  - assert (Hbits : Z.of_nat (Z.to_nat rate * (length before + 1)) =
                    rate * (Z.of_nat (length before) + 1))
      by (destruct Hrate as [-> | ->]; lia).
    rewrite Hbits. split; (intros [H|H]; [left; exact H | right]).
    + destruct after as [|x after]; [reflexivity|].
      destruct Hrate as [-> | ->]; cbn [length] in H; lia.
    + now rewrite H, Nat.mul_0_r.
  - destruct Hrate as [-> | ->].
    + change (Z.to_nat 4) with 4%nat. rewrite Nat2Z.inj_mul.
      change (Z.of_nat 4) with (2 * 2). rewrite <- Z.mul_assoc, Z.mul_comm. apply Z_mod_mult.
    + change (Z.to_nat 8) with 8%nat. rewrite Nat2Z.inj_mul.
      change (Z.of_nat 8) with (2 * 4). rewrite <- Z.mul_assoc, Z.mul_comm. apply Z_mod_mult.
  - destruct after as [|x after]; [left; now rewrite Nat.mul_0_r|].
    right. destruct Hrate as [-> | ->]; cbn [length]; lia.
Qed.

Lemma link_reset_restarts_master_refclk_witness :
  S7Serdes.init "master" 4 = inr (master 4) /\
  S7Serdes.reset (cycle true false) = true /\
  Forall no_reset [cycle false false] /\
  skipn 8 (refclk (S7Serdes.run (master 4) reset_in_second_cycle)) =
    [false; false; false; false].
Proof.
  assert (Hnr : Forall no_reset [cycle false false]) by (repeat constructor).
  split; [reflexivity|]. split; [reflexivity|]. split; [exact Hnr|].
  exact (proj1 (proj2 (link_reset_restarts_master_refclk 4 (master 4) eq_refl
                         [cycle false false] (cycle true false) [cycle false false]
                         eq_refl Hnr))).
Defined.
